(** * MAX6675 temperature acquisition: driver and acquisition loop

    A shallow embedding of [main.py] (MicroPython).  The program bit-bangs a
    MAX6675 thermocouple converter over three pins, samples it once per
    second under operator control (p / r / q) and writes the collected
    samples to a CSV file when the loop ends.

    Conventions of the embedding:
    - Python integers are [Z]; the bit operations are those of [Z].
    - Python floats are rationals ([Q]).  The two float operations of the
      program are [value * 0.25] (exact in binary floating point for the
      13-bit values that reach it) and [ms / 1000.0], whose float result is
      rendered by the exact quotient.  Rounding is monotone, so the order
      and the sign of the stored elapsed times are those of the program;
      what is said about their value is said about the integer number of
      milliseconds [elapsed_ms] that is divided.
    - The outside world (the serial-data line, the millisecond clock and the
      operator's keyboard) is an oracle [Env], indexed by the number of
      times each input has been consulted so far.
    - Asynchronous [KeyboardInterrupt] is not modelled: the development
      covers executions in which the loop body runs uninterrupted. *)

From Stdlib Require Import ZArith QArith List String Ascii Bool Lia.
From Stdlib Require Import DecimalString.
Import ListNotations.

Local Open Scope Z_scope.

(** ** The [time] module (MicroPython, not part of the repository)

    [time.ticks_ms()] returns the millisecond uptime counter reduced to
    [TICKS_PERIOD], and [time.ticks_diff(a, b)] is the signed difference of
    two such readings computed in wrap-around arithmetic:
    [((a - b + PERIOD/2) & (PERIOD-1)) - PERIOD/2].  On the 32-bit ports the
    period is [2^30]. *)

Definition TICKS_PERIOD : Z := 2 ^ 30.

Definition ticks_of (uptime : Z) : Z := Z.land uptime (TICKS_PERIOD - 1).

Definition ticks_diff (a b : Z) : Z :=
  Z.land (a - b + TICKS_PERIOD / 2) (TICKS_PERIOD - 1) - TICKS_PERIOD / 2.

(** ** The outside world *)

Record Env : Type := mkEnv {
  so_level : nat -> bool;             (* level of SO at its n-th sampling *)
  uptime_ms : nat -> Z;               (* uptime at the n-th clock query   *)
  stdin_line : nat -> option string   (* line pending at the n-th poll    *)
}.

Inductive PinName : Type := SCK | CS | SO.

Inductive Event : Type :=
| PinWrite (p : PinName) (level : bool)
| PinRead (p : PinName) (level : bool)
| SleepUs (n : Z)
| Sleep (seconds : Q).

(** A console or file line.  [SampleLine e t] stands for the text
    ["{:.3f},{:.2f}".format(e, t)]. *)
Inductive Line : Type :=
| Text (s : string)
| SampleLine (elapsed temp : Q).

Record World : Type := mkWorld {
  sck_level : bool;
  cs_level : bool;
  so_samples : nat;       (* how often SO has been sampled *)
  clock_queries : nat;    (* how often ticks_ms has been called *)
  stdin_polls : nat;      (* how often the keyboard has been polled *)
  trace : list Event;     (* pin activity and sleeps, oldest first *)
  console : list Line;    (* printed lines, oldest first *)
  files : list (string * list Line)
}.

(** ** A state monad over the world *)

Definition IO (A : Type) : Type := World -> A * World.

Definition ret {A} (a : A) : IO A := fun w => (a, w).

Definition bind {A B} (m : IO A) (k : A -> IO B) : IO B :=
  fun w => let (a, w') := m w in k a w'.

Notation "x <- m ;; k" := (bind m (fun x => k))
  (at level 61, m at next level, right associativity).
Notation "m ;;; k" := (bind m (fun _ => k))
  (at level 61, right associativity).

Definition emit (e : Event) (w : World) : World :=
  mkWorld (sck_level w) (cs_level w) (so_samples w) (clock_queries w)
          (stdin_polls w) (trace w ++ [e]) (console w) (files w).

Definition print (l : Line) : IO unit := fun w =>
  (tt, mkWorld (sck_level w) (cs_level w) (so_samples w) (clock_queries w)
               (stdin_polls w) (trace w) (console w ++ [l]) (files w)).

Definition sleep_us (n : Z) : IO unit := fun w => (tt, emit (SleepUs n) w).

Definition sleep (seconds : Q) : IO unit := fun w => (tt, emit (Sleep seconds) w).

Definition sck_value (level : bool) : IO unit := fun w =>
  (tt, emit (PinWrite SCK level)
         (mkWorld level (cs_level w) (so_samples w) (clock_queries w)
                  (stdin_polls w) (trace w) (console w) (files w))).

Definition cs_value (level : bool) : IO unit := fun w =>
  (tt, emit (PinWrite CS level)
         (mkWorld (sck_level w) level (so_samples w) (clock_queries w)
                  (stdin_polls w) (trace w) (console w) (files w))).

Section Program.

Variable env : Env.

Definition so_value : IO bool := fun w =>
  let b := so_level env (so_samples w) in
  (b, emit (PinRead SO b)
        (mkWorld (sck_level w) (cs_level w) (S (so_samples w)) (clock_queries w)
                 (stdin_polls w) (trace w) (console w) (files w))).

Definition ticks_ms : IO Z := fun w =>
  (ticks_of (uptime_ms env (clock_queries w)),
   mkWorld (sck_level w) (cs_level w) (so_samples w) (S (clock_queries w))
           (stdin_polls w) (trace w) (console w) (files w)).

(** ** class MAX6675 *)

(** [__init__]: the pins are module globals; the constructor idles CS high. *)
Definition MAX6675_init : IO unit := cs_value true.

(** The body of [for _ in range(n)] in [read], iterated [n] times on the
    accumulator [value]. *)
Fixpoint clock_in (n : nat) (value : Z) : IO Z :=
  match n with
  | O => ret value
  | S n' =>
      sck_value true ;;;
      let value := Z.shiftl value 1 in
      b <- so_value ;;
      let value := if b then Z.lor value 1 else value in
      sck_value false ;;;
      clock_in n' value
  end.

Definition read : IO (option Q) :=
  cs_value false ;;;
  sleep_us 10 ;;;
  value <- clock_in 16 0 ;;
  cs_value true ;;;
  if negb (Z.land value 4 =? 0) then ret None
  else
    let value := Z.shiftr value 3 in
    ret (Some (inject_Z value * (1 # 4))%Q).

(** ** Experiment configuration *)

Definition SAMPLING_INTERVAL : Z := 1.
Definition TOTAL_SAMPLES : Z := 180.

(** ** Helper: non-blocking key check *)

(** [str.strip()] removes leading and trailing ASCII whitespace. *)
Definition is_space (c : ascii) : bool :=
  match nat_of_ascii c with
  | 9%nat | 10%nat | 11%nat | 12%nat | 13%nat | 32%nat => true
  | _ => false
  end.

Fixpoint lstrip (s : string) : string :=
  match s with
  | EmptyString => EmptyString
  | String c s' => if is_space c then lstrip s' else s
  end.

Fixpoint rstrip (s : string) : string :=
  match s with
  | EmptyString => EmptyString
  | String c s' =>
      match rstrip s' with
      | EmptyString => if is_space c then EmptyString else String c EmptyString
      | r => String c r
      end
  end.

Definition strip (s : string) : string := rstrip (lstrip s).

Definition read_keyboard : IO (option string) := fun w =>
  (option_map strip (stdin_line env (stdin_polls w)),
   mkWorld (sck_level w) (cs_level w) (so_samples w) (clock_queries w)
           (S (stdin_polls w)) (trace w) (console w) (files w)).

(** [key == c] for a key that may be [None]. *)
Definition key_is (key : option string) (c : string) : bool :=
  match key with
  | Some s => String.eqb s c
  | None => false
  end.

(** ** Helper: write CSV *)

Definition csv_lines (data : list (Q * Q)) : list Line :=
  Text "time_seconds,temperature_C"
  :: map (fun s => SampleLine (fst s) (snd s)) data.

Definition write_csv (filename : string) (data : list (Q * Q)) : IO unit :=
  fun w =>
    print (Text ("CSV guardado como: " ++ filename))
      (mkWorld (sck_level w) (cs_level w) (so_samples w) (clock_queries w)
               (stdin_polls w) (trace w) (console w)
               (files w ++ [(filename, csv_lines data)])).

(** ** Data acquisition loop *)

Definition str_of_Z (n : Z) : string := NilZero.string_of_int (Z.to_int n).

(** The module-level variables of the acquisition loop, with the world. *)
Record State : Type := mkState {
  world : World;
  csv_filename : string;
  data : list (Q * Q);
  t0 : Z;
  paused_time : Z;
  pause_start : option Z;
  paused : bool;
  sample_count : Z
}.

Definition with_world (st : State) (w : World) : State :=
  mkState w (csv_filename st) (data st) (t0 st) (paused_time st)
          (pause_start st) (paused st) (sample_count st).

(** How one pass through the loop body ends: it falls through to the next
    evaluation of the guard, or leaves by [break].  The third outcome stands
    for [ticks_diff] applied to a [pause_start] that is still [None], which
    is not a tick reading; what the program does then is left unspecified
    (no reachable state gets there, see [loop_body_specified]). *)
Inductive Outcome : Type :=
| Next (st : State)
| Break (st : State)
| Unspecified (st : State).

(** Lines 114-126: poll the keyboard and act on the command. *)
Definition poll_commands (st : State) : Outcome :=
  let (key, w) := read_keyboard (world st) in
  if key_is key "p" && negb (paused st) then
    let (now, w) := ticks_ms w in
    let (_, w) := print (Text "PAUSED") w in
    Next (mkState w (csv_filename st) (data st) (t0 st) (paused_time st)
                  (Some now) true (sample_count st))
  else if key_is key "r" && paused st then
    let (pause_end, w) := ticks_ms w in
    match pause_start st with
    | Some ps =>
        let (_, w) := print (Text "RESUMED") w in
        Next (mkState w (csv_filename st) (data st) (t0 st)
                      (paused_time st + ticks_diff pause_end ps)
                      (pause_start st) false (sample_count st))
    | None =>
        Unspecified (mkState w (csv_filename st) (data st) (t0 st)
                       (paused_time st) (pause_start st) false
                       (sample_count st))
    end
  else if key_is key "q" then
    let (_, w) := print (Text "STOP") w in
    Break (with_world st w)
  else Next (with_world st w).

(** Lines 131-133, the integer part: the number of milliseconds that is
    then divided by [1000.0]. *)
Definition elapsed_ms (t_now : Z) (st : State) : Z :=
  ticks_diff t_now (t0 st) - paused_time st.

(** Lines 129-145: take a sample unless paused, then sleep. *)
Definition acquire (st : State) : State :=
  if negb (paused st) then
    let (t_now, w) := ticks_ms (world st) in
    let elapsed_time := (inject_Z (elapsed_ms t_now st) / 1000)%Q in
    let (temp, w) := read w in
    match temp with
    | Some temp =>
        let (_, w) := print (SampleLine elapsed_time temp) w in
        let (_, w) := sleep (inject_Z SAMPLING_INTERVAL) w in
        mkState w (csv_filename st) (data st ++ [(elapsed_time, temp)])
                (t0 st) (paused_time st) (pause_start st) (paused st)
                (sample_count st + 1)
    | None =>
        let (_, w) := print (Text "ERROR: Thermocouple disconnected") w in
        let (_, w) := sleep (inject_Z SAMPLING_INTERVAL) w in
        with_world st w
    end
  else
    let (_, w) := sleep (1 # 10) (world st) in
    with_world st w.

Definition loop_body (st : State) : Outcome :=
  match poll_commands st with
  | Next st' => Next (acquire st')
  | o => o
  end.

Definition loop_guard (st : State) : bool := sample_count st <? TOTAL_SAMPLES.

(** How the [while] statement was left. *)
Inductive Exit : Type := GuardFalse | ByBreak | ByUnspecified.

(** The [while] loop, run for at most [fuel] passes; [None] when the fuel
    is used up with the loop still running. *)
Fixpoint acquisition_loop (fuel : nat) (st : State) : option (Exit * State) :=
  if loop_guard st then
    match fuel with
    | O => None
    | S fuel' =>
        match loop_body st with
        | Next st' => acquisition_loop fuel' st'
        | Break st' => Some (ByBreak, st')
        | Unspecified st' => Some (ByUnspecified, st')
        end
    end
  else Some (GuardFalse, st).

(** Lines 15-108: pin set-up, sensor construction, file name, banner and
    the initial values of the loop variables. *)
Definition power_on (sck0 cs0 : bool) : World :=
  mkWorld sck0 cs0 0 0 0 [] [] [].

Definition startup (w : World) : State :=
  let (_, w) := MAX6675_init w in
  let (boot, w) := ticks_ms w in
  let csv_filename := ("temp_" ++ str_of_Z boot ++ ".csv")%string in
  let (_, w) := print (Text "START") w in
  let (_, w) :=
    print (Text ("Duracion: 3 minutos (" ++ str_of_Z TOTAL_SAMPLES
                 ++ " muestras a 1 Hz)")) w in
  let (_, w) := print (Text ("Archivo de salida: " ++ csv_filename)) w in
  let (_, w) :=
    print (Text "Presiona 'p' para pausar, 'r' para reanudar, 'q' para salir")
          w in
  let (t0, w) := ticks_ms w in
  mkState w csv_filename [] t0 0 None false 0.

(** Lines 155-159: write the samples out, if there are any. *)
Definition write_out (st : State) : World :=
  match data st with
  | [] => snd (print (Text "Sin datos para guardar.") (world st))
  | _ :: _ => snd (write_csv (csv_filename st) (data st) (world st))
  end.

(** The whole program.  Leaving the loop by its guard or by [break] reaches
    the [print("STOP")] of line 147 and then the output step; nothing is
    said about what follows the unspecified outcome. *)
Definition main (fuel : nat) (w : World) : option (Exit * World) :=
  match acquisition_loop fuel (startup w) with
  | None => None
  | Some (ByUnspecified, st) => Some (ByUnspecified, world st)
  | Some (e, st) =>
      let (_, w) := print (Text "STOP") (world st) in
      Some (e, write_out (with_world st w))
  end.

(** The states in which the loop guard is evaluated. *)
Inductive reachable : State -> Prop :=
| reach_start (sck0 cs0 : bool) : reachable (startup (power_on sck0 cs0))
| reach_next (st st' : State) :
    reachable st -> loop_guard st = true -> loop_body st = Next st' ->
    reachable st'.

End Program.

(** ** Vocabulary for the statements *)

(** The events of one clock pulse that samples level [b]. *)
Definition pulse (b : bool) : list Event :=
  [PinWrite SCK true; PinRead SO b; PinWrite SCK false].

(** The next [n] levels of the serial-data line, starting at sampling [k]. *)
Definition so_bits (env : Env) (k n : nat) : list bool :=
  map (so_level env) (seq k n).

(** One pass of the [for] loop of [read] on the accumulator. *)
Definition shift_in (value : Z) (b : bool) : Z :=
  if b then Z.lor (Z.shiftl value 1) 1 else Z.shiftl value 1.

(** Number of times the clock line has been driven high. *)
Definition count_pulses (t : list Event) : nat :=
  List.length (filter (fun e => match e with
                                | PinWrite SCK true => true
                                | _ => false
                                end) t).

(** The world in which [read] enters its [for] loop: chip-select has been
    pulled low and the settle delay has passed. *)
Definition selected (w : World) : World :=
  snd (sleep_us 10 (snd (cs_value false w))).

(** The key consumed by the pass of the loop body that starts in [st], and
    the world in which that pass goes on after the poll. *)
Definition key_at (env : Env) (st : State) : option string :=
  fst (read_keyboard env (world st)).

Definition polled (env : Env) (st : State) : World :=
  snd (read_keyboard env (world st)).

(** The state after [n] complete passes of the loop from [st], if the guard
    holds before each of them and none of them leaves the loop. *)
Fixpoint passes (env : Env) (n : nat) (st : State) : option State :=
  match n with
  | O => Some st
  | S n' =>
      if loop_guard st then
        match loop_body env st with
        | Next st' => passes env n' st'
        | _ => None
        end
      else None
  end.

(** The state in which the guard is evaluated for the [n+1]-th time in the
    run that starts with the pins at [sck0] and [cs0] (the last such state
    if the loop ends earlier). *)
Fixpoint after (env : Env) (n : nat) (sck0 cs0 : bool) : State :=
  match n with
  | O => startup env (power_on sck0 cs0)
  | S n' =>
      let st := after env n' sck0 cs0 in
      if loop_guard st then
        match loop_body env st with
        | Next st' => st'
        | _ => st
        end
      else st
  end.

(** What holds whenever the loop guard is evaluated: the counter counts the
    stored samples, the quota is not exceeded, chip-select idles high, and
    a pause in progress has its start recorded. *)
Definition well_formed (st : State) : Prop :=
  sample_count st = Z.of_nat (List.length (data st)) /\
  sample_count st <= TOTAL_SAMPLES /\
  cs_level (world st) = true /\
  (paused st = true -> pause_start st <> None).

(** Elapsed times of adjacent stored samples never decrease. *)
Definition nondecreasing (l : list Q) : Prop :=
  forall i a b,
    nth_error l i = Some a -> nth_error l (S i) = Some b -> (a <= b)%Q.

(** The clock of [env] never runs backwards. *)
Definition monotonic_clock (env : Env) : Prop :=
  forall i j, (i <= j)%nat -> uptime_ms env i <= uptime_ms env j.

(** Every clock reading taken so far in [st] lies less than half a tick
    period after the reading that became [t0] (clock query number 1; query
    number 0 names the CSV file). *)
Definition within_half_period (env : Env) (st : State) : Prop :=
  forall n, (n < clock_queries (world st))%nat ->
    uptime_ms env n - uptime_ms env 1 < TICKS_PERIOD / 2.

(** The timing invariant of the loop, in terms of the true uptime: [t0] is
    the reading of query 1, and for some earlier query [k] (the start of
    the pause in progress, if any) every stored elapsed time is at most the
    active time at query [k]. *)
Definition timing_inv (env : Env) (st : State) : Prop :=
  t0 st = ticks_of (uptime_ms env 1) /\
  exists k,
    (1 <= k < clock_queries (world st))%nat /\
    (paused st = true -> pause_start st = Some (ticks_of (uptime_ms env k))) /\
    nondecreasing (map fst (data st)) /\
    forall e, In e (map fst (data st)) ->
      (e <= inject_Z (uptime_ms env k - uptime_ms env 1 - paused_time st)
            / 1000)%Q.

(** An environment in which the converter answers every read with the same
    16-bit [word], the clock advances by [period] milliseconds from one
    query to the next, and the operator's lines are [keys]. *)
Definition steady_env (word period : Z) (keys : nat -> option string) : Env :=
  mkEnv (fun n => Z.testbit word (15 - Z.of_nat (n mod 16)))
        (fun n => period * Z.of_nat n)
        keys.

Definition no_keys : nat -> option string := fun _ => None.

(** A converter at 100.0 degrees, a clock that advances one second per
    query, and a silent operator. *)
Definition demo_env : Env := steady_env 3200 1000 no_keys.

(** The same with the thermocouple disconnected (bit 2 set). *)
Definition fault_env : Env := steady_env 3204 1000 no_keys.

(** A run whose second sample is taken [2^29] ms after the start: the
    queries read 0 (file name), 0 ([t0]), 1, [2^29], [2^29 + 1000], ... *)
Definition late_env : Env :=
  mkEnv (so_level demo_env)
        (fun n => if (n <=? 1)%nat then 0
                  else if (n =? 2)%nat then 1
                  else 2 ^ 29 + 1000 * (Z.of_nat n - 3))
        no_keys.

(** The operator's lines given poll by poll; no input after the list. *)
Definition keys_of (l : list (option string)) : nat -> option string :=
  fun n => nth n l None.

(** A line as [readline] returns it, with its newline. *)
Definition line (s : string) : option string :=
  Some (s ++ String "010"%char EmptyString)%string.


(** An operator who pauses before the second pass, resumes before the
    fourth and quits before the sixth. *)
Definition operator_env : Env :=
  steady_env 3200 1000
    (keys_of [None; line "p"; None; line "r"; None; line "q"]).

(** The state the command poll of the pass starting in [st] leads to. *)
Definition after_poll (env : Env) (st : State) : State :=
  match poll_commands env st with
  | Next st1 | Break st1 | Unspecified st1 => st1
  end.

(** The world in which [read] is called by the pass whose command poll led
    to [st1]. *)
Definition read_world (env : Env) (st1 : State) : World :=
  snd (ticks_ms env (world st1)).

(** The bus activity of one call of [read] that starts at sampling [k]. *)
Definition read_frame (env : Env) (k : nat) : list Event :=
  [PinWrite CS false; SleepUs 10]
    ++ flat_map pulse (so_bits env k 16) ++ [PinWrite CS true].

(** The levels of chip-select and clock after the events of [t], starting
    from the levels [cs] and [sck]. *)
Fixpoint levels (cs sck : bool) (t : list Event) : bool * bool :=
  match t with
  | [] => (cs, sck)
  | PinWrite CS l :: t' => levels l sck t'
  | PinWrite SCK l :: t' => levels cs l t'
  | _ :: t' => levels cs sck t'
  end.

(** The serial-data line is only ever sampled while chip-select is low and
    the clock is high. *)
Fixpoint bus_ok (cs sck : bool) (t : list Event) : bool :=
  match t with
  | [] => true
  | PinWrite CS l :: t' => bus_ok l sck t'
  | PinWrite SCK l :: t' => bus_ok cs l t'
  | PinRead SO _ :: t' => negb cs && sck && bus_ok cs sck t'
  | _ :: t' => bus_ok cs sck t'
  end.

(** Every write of the clock line and every sampling of the data line
    belongs to a pulse of the form: clock high, one sample, clock low. *)
Fixpoint one_sample_per_pulse (t : list Event) : bool :=
  match t with
  | [] => true
  | PinWrite SCK true :: PinRead SO _ :: PinWrite SCK false :: t' =>
      one_sample_per_pulse t'
  | PinWrite SCK _ :: _ => false
  | PinRead SO _ :: _ => false
  | _ :: t' => one_sample_per_pulse t'
  end.

(** The samples shown on the console, in the order printed. *)
Definition printed_samples (c : list Line) : list (Q * Q) :=
  flat_map (fun l => match l with
                     | SampleLine e t => [(e, t)]
                     | Text _ => []
                     end) c.

(** The number of disconnection warnings on the console. *)
Definition count_errors (c : list Line) : nat :=
  List.length
    (filter (fun l => match l with
                      | Text s => String.eqb s "ERROR: Thermocouple disconnected"
                      | SampleLine _ _ => false
                      end) c).

(** The line a running pass prints when its acquisition step starts in
    [st]: the sample, or the warning. *)
Definition report (env : Env) (st : State) : Line :=
  match fst (read env (read_world env st)) with
  | Some temp =>
      SampleLine
        (inject_Z (ticks_diff (fst (ticks_ms env (world st))) (t0 st)
                   - paused_time st) / 1000)%Q temp
  | None => Text "ERROR: Thermocouple disconnected"
  end.

(** The temperature of a stored sample is a 13-bit count of quarter
    degrees. *)
Definition quantized (s : Q * Q) : Prop :=
  exists m : Z, snd s = (inject_Z m * (1 # 4))%Q /\ 0 <= m <= 8191.

(** The accounting invariant in true time: on top of the link between
    [pause_start] and the clock, the cumulative paused duration lies
    between 0 and the uptime since the start, and no stored elapsed time is
    negative. *)
Definition active_time_inv (env : Env) (st : State) : Prop :=
  t0 st = ticks_of (uptime_ms env 1) /\
  exists k,
    (1 <= k < clock_queries (world st))%nat /\
    (paused st = true -> pause_start st = Some (ticks_of (uptime_ms env k))) /\
    0 <= paused_time st <= uptime_ms env k - uptime_ms env 1 /\
    forall s, In s (data st) -> (0 <= fst s)%Q.

(** Strings that consist of whitespace only, and strings without any. *)
Definition all_space (s : string) : bool :=
  forallb is_space (list_ascii_of_string s).

Definition no_space (s : string) : bool :=
  forallb (fun c => negb (is_space c)) (list_ascii_of_string s).

(** The line printed last by the program, after the final [STOP]. *)
Definition closing_line (st : State) : Line :=
  match data st with
  | [] => Text "Sin datos para guardar."
  | _ :: _ => Text ("CSV guardado como: " ++ csv_filename st)
  end.

(** An operator who pauses, then types [p] again and an unknown word while
    paused. *)
Definition idle_env : Env :=
  steady_env 3200 1000
    (keys_of [None; line "p"; line "p"; None; line "hello"]).

(** * The sensor driver *)

(** ** Bit arithmetic of the accumulator *)

Lemma shift_in_arith (value : Z) (b : bool) :
  shift_in value b = 2 * value + Z.b2z b.
Proof.
  unfold shift_in. rewrite Z.shiftl_mul_pow2 by lia. change (2 ^ 1) with 2.
  destruct b; cbn [Z.b2z]; [|lia].
  replace (value * 2) with (2 * value + Z.b2z false) by (cbn [Z.b2z]; lia).
  apply Z.bits_inj'. intros k Hk. rewrite Z.lor_spec.
  change (2 * value + 1) with (2 * value + Z.b2z true).
  destruct (Z.eq_dec k 0) as [->|Hne].
  - rewrite !Z.testbit_0_r. reflexivity.
  - replace k with (Z.succ (k - 1)) by lia.
    rewrite !Z.testbit_succ_r by lia.
    assert (H1 : Z.testbit 1 (Z.succ (k - 1)) = false).
    { rewrite <- (Z.testbit_0_l (k - 1)).
      apply (Z.testbit_succ_r 0 true (k - 1)). lia. }
    rewrite H1. apply orb_false_r.
Qed.

Lemma shift_in_testbit (value : Z) (b : bool) (k : Z) :
  0 <= k ->
  Z.testbit (shift_in value b) k =
  if k =? 0 then b else Z.testbit value (k - 1).
Proof.
  intros Hk. rewrite shift_in_arith.
  destruct (Z.eqb_spec k 0) as [->|Hne].
  - apply Z.testbit_0_r.
  - replace k with (Z.succ (k - 1)) at 1 by lia.
    apply Z.testbit_succ_r. lia.
Qed.

Lemma testbit_above (n a k : Z) :
  0 <= a < 2 ^ n -> 0 <= n <= k -> Z.testbit a k = false.
Proof.
  intros Ha Hk. rewrite <- (Z.mod_small a (2 ^ n)) by assumption.
  now apply Z.mod_pow2_bits_high.
Qed.

(** The mask [0x4] isolates bit 2. *)
Lemma land_4_testbit (a : Z) :
  (Z.land a 4 =? 0) = negb (Z.testbit a 2).
Proof.
  assert (H : Z.land a 4 = if Z.testbit a 2 then 4 else 0).
  { apply Z.bits_inj'. intros k Hk. rewrite Z.land_spec.
    change 4 with (2 ^ 2) at 1. rewrite Z.pow2_bits_eqb by lia.
    destruct (Z.eqb_spec 2 k) as [<-|Hne].
    - destruct (Z.testbit a 2); reflexivity.
    - rewrite andb_false_r. destruct (Z.testbit a 2).
      + change 4 with (2 ^ 2). rewrite Z.pow2_bits_eqb by lia.
        symmetry. now apply Z.eqb_neq.
      + now rewrite Z.testbit_0_l. }
  rewrite H. destruct (Z.testbit a 2); reflexivity.
Qed.

(** Shifting a list of bits in, first bit first, leaves the bit shifted in
    at step [i] at position [length bits - 1 - i], above them the bits of
    the initial accumulator. *)
Lemma fold_shift_in_testbit (bits : list bool) : forall (value j : Z),
  0 <= j ->
  Z.testbit (fold_left shift_in bits value) j =
  if j <? Z.of_nat (List.length bits)
  then nth (List.length bits - 1 - Z.to_nat j) bits false
  else Z.testbit value (j - Z.of_nat (List.length bits)).
Proof.
  induction bits as [|b bits IH]; intros value j Hj.
  - cbn. rewrite Z.sub_0_r. destruct (Z.ltb_spec j 0); [lia|reflexivity].
  - cbn [fold_left]. rewrite IH by assumption.
    cbn [List.length]. rewrite Nat2Z.inj_succ.
    destruct (Z.ltb_spec j (Z.of_nat (List.length bits))) as [Hlt|Hge].
    + destruct (Z.ltb_spec j (Z.succ (Z.of_nat (List.length bits)))); [|lia].
      replace (S (List.length bits) - 1 - Z.to_nat j)%nat
        with (S (List.length bits - 1 - Z.to_nat j)) by lia.
      reflexivity.
    + rewrite shift_in_testbit by lia.
      destruct (Z.eqb_spec (j - Z.of_nat (List.length bits)) 0) as [E|E].
      * destruct (Z.ltb_spec j (Z.succ (Z.of_nat (List.length bits)))); [|lia].
        replace (S (List.length bits) - 1 - Z.to_nat j)%nat with O by lia.
        reflexivity.
      * destruct (Z.ltb_spec j (Z.succ (Z.of_nat (List.length bits)))); [lia|].
        f_equal. lia.
Qed.

Lemma fold_shift_in_bounds (bits : list bool) : forall value : Z,
  0 <= value ->
  0 <= fold_left shift_in bits value
    < (value + 1) * 2 ^ Z.of_nat (List.length bits).
Proof.
  induction bits as [|b bits IH]; intros value Hv.
  - cbn. lia.
  - cbn [fold_left List.length]. rewrite Nat2Z.inj_succ, Z.pow_succ_r by lia.
    assert (Hs : 0 <= shift_in value b <= 2 * value + 1)
      by (rewrite shift_in_arith; destruct b; cbn [Z.b2z]; lia).
    specialize (IH (shift_in value b) (proj1 Hs)).
    assert (0 < 2 ^ Z.of_nat (List.length bits)) by (apply Z.pow_pos_nonneg; lia).
    nia.
Qed.

Lemma so_bits_length (env : Env) (k n : nat) :
  List.length (so_bits env k n) = n.
Proof. unfold so_bits. now rewrite length_map, length_seq. Qed.

Lemma so_bits_nth (env : Env) (k n i : nat) :
  (i < n)%nat -> nth i (so_bits env k n) false = so_level env (k + i).
Proof.
  intros Hi. unfold so_bits.
  rewrite nth_indep with (d' := so_level env 0)
    by (now rewrite length_map, length_seq).
  rewrite map_nth, seq_nth by assumption. reflexivity.
Qed.

Lemma count_pulses_app (t1 t2 : list Event) :
  count_pulses (t1 ++ t2) = (count_pulses t1 + count_pulses t2)%nat.
Proof. unfold count_pulses. now rewrite filter_app, length_app. Qed.

Lemma count_pulses_flat_map (bits : list bool) :
  count_pulses (flat_map pulse bits) = List.length bits.
Proof.
  induction bits as [|b bits IH]; [reflexivity|].
  cbn [flat_map]. rewrite count_pulses_app, IH. reflexivity.
Qed.

Section Driver.

Variable env : Env.

Lemma clock_in_unfold (n : nat) (value : Z) (w : World) :
  clock_in env (S n) value w =
  clock_in env n (shift_in value (so_level env (so_samples w)))
    (mkWorld false (cs_level w) (S (so_samples w)) (clock_queries w)
       (stdin_polls w) (trace w ++ pulse (so_level env (so_samples w)))
       (console w) (files w)).
Proof.
  cbn [clock_in]. unfold bind, sck_value, so_value, emit, shift_in, pulse.
  cbn. repeat rewrite <- app_assoc. cbn.
  destruct (so_level env (so_samples w)); reflexivity.
Qed.

Lemma clock_in_value (n : nat) : forall value w,
  fst (clock_in env n value w) =
  fold_left shift_in (so_bits env (so_samples w) n) value.
Proof.
  induction n as [|n IH]; intros value w.
  - reflexivity.
  - rewrite clock_in_unfold, IH. reflexivity.
Qed.

Lemma clock_in_world (n : nat) : forall value w,
  snd (clock_in env n value w) =
  mkWorld (match n with O => sck_level w | S _ => false end)
          (cs_level w) (so_samples w + n) (clock_queries w) (stdin_polls w)
          (trace w ++ flat_map pulse (so_bits env (so_samples w) n))
          (console w) (files w).
Proof.
  induction n as [|n IH]; intros value w.
  - cbn. rewrite Nat.add_0_r, app_nil_r. destruct w; reflexivity.
  - rewrite clock_in_unfold, IH. cbn [sck_level cs_level so_samples
      clock_queries stdin_polls trace console files].
    f_equal.
    + destruct n; reflexivity.
    + lia.
    + unfold so_bits. cbn [seq map flat_map]. now rewrite <- app_assoc.
Qed.

(** What [read] returns and the world it leaves, in closed form. *)
Lemma read_unfold (w : World) :
  read env w =
  (let value := fst (clock_in env 16 0 (selected w)) in
   if negb (Z.land value 4 =? 0) then None
   else Some (inject_Z (Z.shiftr value 3) * (1 # 4))%Q,
   mkWorld false true (so_samples w + 16) (clock_queries w) (stdin_polls w)
     (trace w ++ [PinWrite CS false; SleepUs 10]
        ++ flat_map pulse (so_bits env (so_samples w) 16)
        ++ [PinWrite CS true])
     (console w) (files w)).
Proof.
  unfold read, bind. unfold cs_value at 1. unfold sleep_us.
  change (emit (SleepUs 10) (emit (PinWrite CS false) _)) with (selected w).
  destruct (clock_in env 16 0 (selected w)) as [value w'] eqn:E.
  assert (Hw : w' = snd (clock_in env 16 0 (selected w))) by now rewrite E.
  rewrite clock_in_world in Hw. cbn [fst].
  assert (Hworld : emit (PinWrite CS true)
            (mkWorld (sck_level w') true (so_samples w') (clock_queries w')
               (stdin_polls w') (trace w') (console w') (files w')) =
          mkWorld false true (so_samples w + 16) (clock_queries w)
            (stdin_polls w)
            (trace w ++ [PinWrite CS false; SleepUs 10]
               ++ flat_map pulse (so_bits env (so_samples w) 16)
               ++ [PinWrite CS true])
            (console w) (files w)).
  { subst w'. unfold selected, sleep_us, cs_value, emit. cbn.
    now rewrite <- !app_assoc. }
  unfold cs_value. rewrite Hworld.
  destruct (negb (Z.land value 4 =? 0)); reflexivity.
Qed.

Lemma clock_in_16_bits (w : World) (i : nat) :
  (i < 16)%nat ->
  Z.testbit (fst (clock_in env 16 0 w)) (15 - Z.of_nat i) =
  so_level env (so_samples w + i).
Proof.
  intros Hi. rewrite clock_in_value, fold_shift_in_testbit by lia.
  rewrite so_bits_length.
  destruct (Z.ltb_spec (15 - Z.of_nat i) (Z.of_nat 16)); [|lia].
  rewrite so_bits_nth by lia. f_equal. lia.
Qed.

Lemma clock_in_16_range (w : World) :
  0 <= fst (clock_in env 16 0 w) < 2 ^ 16.
Proof.
  rewrite clock_in_value.
  pose proof (fold_shift_in_bounds (so_bits env (so_samples w) 16) 0) as H.
  rewrite so_bits_length in H. apply H. lia.
Qed.

(** If the line presents the bits of a 16-bit [word], most significant bit
    first, the loop of [read] accumulates exactly [word]. *)
Lemma clock_in_16_word (w : World) (word : Z) :
  0 <= word < 2 ^ 16 ->
  (forall i, (i < 16)%nat ->
     so_level env (so_samples w + i) = Z.testbit word (15 - Z.of_nat i)) ->
  fst (clock_in env 16 0 w) = word.
Proof.
  intros Hword Hline. apply Z.bits_inj'. intros k Hk.
  destruct (Z.lt_ge_cases k 16) as [Hlt|Hge].
  - replace k with (15 - Z.of_nat (Z.to_nat (15 - k))) by lia.
    rewrite clock_in_16_bits by lia. apply Hline. lia.
  - pose proof (clock_in_16_range w) as Hr.
    now rewrite !(testbit_above 16) by lia.
Qed.

End Driver.

(** The result of [read] when the line presents a given 16-bit word. *)
Lemma read_presented_word (env : Env) (w : World) (word : Z) :
  0 <= word < 2 ^ 16 ->
  (forall i, (i < 16)%nat ->
     so_level env (so_samples w + i) = Z.testbit word (15 - Z.of_nat i)) ->
  fst (read env w) =
  if Z.testbit word 2 then None
  else Some (inject_Z (Z.shiftr word 3) * (1 # 4))%Q.
Proof.
  intros Hword Hline. rewrite read_unfold. cbn [fst].
  rewrite (clock_in_16_word env (selected w) word Hword Hline).
  now rewrite land_4_testbit, negb_involutive.
Qed.

(** ** Properties of [MAX6675.read] *)

(** C1 (bit decode).  Whatever 16-bit word the converter shifts out, most
    significant bit first, while [read] clocks the line: if bit 2 of the
    word is clear, [read] returns the temperature [(word >> 3) * 0.25];
    if bit 2 is set, [read] returns [None] (the fault signal) and no
    temperature. *)
Theorem read_decodes_word (env : Env) (w : World) (word : Z) :
  0 <= word < 2 ^ 16 ->
  (forall i, (i < 16)%nat ->
     so_level env (so_samples w + i) = Z.testbit word (15 - Z.of_nat i)) ->
  (Z.testbit word 2 = false ->
   fst (read env w) = Some (inject_Z (Z.shiftr word 3) * (1 # 4))%Q) /\
  (Z.testbit word 2 = true -> fst (read env w) = None).
Proof.
  intros Hword Hline.
  rewrite (read_presented_word env w word Hword Hline).
  split; intros ->; reflexivity.
Qed.

Lemma steady_env_presents (word period : Z) (keys : nat -> option string)
      (i : nat) :
  (i < 16)%nat ->
  so_level (steady_env word period keys) (0 + i) =
  Z.testbit word (15 - Z.of_nat i).
Proof.
  intros Hi. cbn [steady_env so_level Nat.add].
  now rewrite Nat.mod_small by assumption.
Qed.

Lemma read_decodes_word_witness :
  0 <= 3200 < 2 ^ 16 /\
  (forall i, (i < 16)%nat ->
     so_level (steady_env 3200 1000 no_keys)
              (so_samples (power_on false true) + i) =
     Z.testbit 3200 (15 - Z.of_nat i)) /\
  (Z.testbit 3200 2 = false ->
   fst (read (steady_env 3200 1000 no_keys) (power_on false true)) =
   Some (inject_Z (Z.shiftr 3200 3) * (1 # 4))%Q) /\
  (Z.testbit 3200 2 = true ->
   fst (read (steady_env 3200 1000 no_keys) (power_on false true)) = None).
Proof.
  split; [lia|]. split; [apply steady_env_presents|].
  apply (read_decodes_word (steady_env 3200 1000 no_keys)
           (power_on false true) 3200).
  - lia.
  - apply steady_env_presents.
Defined.

(** C2 (MSB-first assembly).  Whatever levels the serial-data line takes,
    one call of [read] drives the clock high exactly 16 times, each pulse
    sampling the line once between chip-select going low and going high
    again, and the value accumulated by its loop (the one [read] decodes)
    is a 16-bit word whose bit [15 - i] is the level sampled on pulse [i],
    for [i = 0..15]. *)
Theorem read_assembles_msb_first (env : Env) (w : World) :
  let value := fst (clock_in env 16 0 (selected w)) in
  count_pulses (trace (snd (read env w))) = (count_pulses (trace w) + 16)%nat
  /\ trace (snd (read env w)) =
     trace w ++ [PinWrite CS false; SleepUs 10]
       ++ flat_map pulse (so_bits env (so_samples w) 16)
       ++ [PinWrite CS true]
  /\ fst (read env w) =
     (if negb (Z.land value 4 =? 0) then None
      else Some (inject_Z (Z.shiftr value 3) * (1 # 4))%Q)
  /\ 0 <= value < 2 ^ 16
  /\ forall i, (i < 16)%nat ->
       Z.testbit value (15 - Z.of_nat i) = so_level env (so_samples w + i).
Proof.
  cbv zeta. rewrite read_unfold. cbn [fst snd trace].
  split; [|split; [reflexivity|split; [reflexivity|split]]].
  - rewrite !count_pulses_app, count_pulses_flat_map, so_bits_length.
    cbn. lia.
  - apply clock_in_16_range.
  - intros i Hi. apply (clock_in_16_bits env (selected w) i Hi).
Qed.

(** C3, as the code has it.  For every 16-bit word with bit 2 clear and bit
    15 clear, the right shift by 3 yields a 12-bit magnitude in [0, 4095],
    and the temperature returned by [read] is that magnitude times 0.25, a
    multiple of 0.25 in [0, 1023.75]. *)
Theorem read_temperature_12_bit (env : Env) (w : World) (word : Z) :
  0 <= word < 2 ^ 16 ->
  (forall i, (i < 16)%nat ->
     so_level env (so_samples w + i) = Z.testbit word (15 - Z.of_nat i)) ->
  Z.testbit word 2 = false ->
  Z.testbit word 15 = false ->
  let m := Z.shiftr word 3 in
  0 <= m <= 4095 /\
  fst (read env w) = Some (inject_Z m * (1 # 4))%Q /\
  (0 <= inject_Z m * (1 # 4) <= 4095 # 4)%Q.
Proof.
  intros Hword Hline Hfault Hsign m.
  assert (Hm : 0 <= m <= 4095).
  { subst m. rewrite Z.shiftr_div_pow2 by lia. change (2 ^ 3) with 8.
    assert (word < 2 ^ 15).
    { destruct (Z.lt_ge_cases word (2 ^ 15)) as [H|H]; [exact H|].
      exfalso. assert (E : Z.testbit word 15 = true).
      { replace word with ((word - 2 ^ 15) + 1 * 2 ^ 15) by lia.
        rewrite Z.testbit_eqb by lia.
        rewrite Z.div_add by lia. rewrite Z.div_small by lia.
        reflexivity. }
      congruence. }
    split; [apply Z.div_pos; lia|].
    apply Z.lt_succ_r. apply Z.div_lt_upper_bound; lia. }
  split; [exact Hm|]. split.
  - rewrite (read_presented_word env w word Hword Hline), Hfault.
    reflexivity.
  - clearbody m. unfold Qle, Qmult, inject_Z. cbn [Qnum Qden].
    split; lia.
Qed.

Lemma read_temperature_12_bit_witness :
  0 <= 3200 < 2 ^ 16 /\
  Z.testbit 3200 2 = false /\
  Z.testbit 3200 15 = false /\
  0 <= Z.shiftr 3200 3 <= 4095 /\
  fst (read (steady_env 3200 1000 no_keys) (power_on false true)) =
  Some (inject_Z (Z.shiftr 3200 3) * (1 # 4))%Q /\
  (0 <= inject_Z (Z.shiftr 3200 3) * (1 # 4) <= 4095 # 4)%Q.
Proof.
  split; [lia|]. split; [reflexivity|]. split; [reflexivity|].
  apply (read_temperature_12_bit (steady_env 3200 1000 no_keys)
           (power_on false true) 3200).
  - lia.
  - apply steady_env_presents.
  - reflexivity.
  - reflexivity.
Defined.

(** C3 as stated fails: the word [0x8000] has bit 2 clear, yet its right
    shift by 3 is 4096 and [read] returns 1024.0, above 1023.75. *)
Lemma read_temperature_13_bit_counterexample :
  0 <= 32768 < 2 ^ 16 /\
  Z.testbit 32768 2 = false /\
  Z.shiftr 32768 3 = 4096 /\
  fst (read (steady_env 32768 1000 no_keys) (power_on false true)) =
  Some (inject_Z 4096 * (1 # 4))%Q /\
  ~ (inject_Z 4096 * (1 # 4) <= 4095 # 4)%Q.
Proof.
  split; [lia|]. split; [reflexivity|]. split; [reflexivity|].
  split; [reflexivity|]. unfold Qle. cbn. lia.
Qed.

(** * The acquisition controller *)

#[local] Arguments read : simpl never.
#[local] Arguments ticks_ms : simpl never.
#[local] Arguments read_keyboard : simpl never.
#[local] Arguments ticks_diff : simpl never.
#[local] Arguments ticks_of : simpl never.
#[local] Arguments str_of_Z : simpl never.

(** ** Tick arithmetic *)

Lemma ticks_of_mod (u : Z) : ticks_of u = u mod TICKS_PERIOD.
Proof.
  unfold ticks_of. change (TICKS_PERIOD - 1) with (Z.ones 30).
  now rewrite Z.land_ones by lia.
Qed.

(** Within half a period, the tick difference of two readings is the true
    difference of the uptimes they were taken at. *)
Lemma ticks_diff_exact (u v : Z) :
  - (TICKS_PERIOD / 2) <= u - v < TICKS_PERIOD / 2 ->
  ticks_diff (ticks_of u) (ticks_of v) = u - v.
Proof.
  intros H. unfold ticks_diff. rewrite !ticks_of_mod.
  change (TICKS_PERIOD - 1) with (Z.ones 30).
  rewrite Z.land_ones by lia. change (2 ^ 30) with TICKS_PERIOD.
  rewrite <- Zplus_mod_idemp_l, Zminus_mod_idemp_l, Zminus_mod_idemp_r,
    Zplus_mod_idemp_l.
  rewrite Z.mod_small; [lia|].
  change TICKS_PERIOD with (2 ^ 30) in *. change (2 ^ 30 / 2) with (2 ^ 29) in *.
  lia.
Qed.

Lemma Qle_ms (a b : Z) :
  a <= b -> (inject_Z a / 1000 <= inject_Z b / 1000)%Q.
Proof.
  intros H. unfold Qle, Qdiv, Qmult, Qinv, inject_Z. cbn [Qnum Qden].
  cbn. lia.
Qed.

Lemma Qle_ms_inv (a b : Z) :
  (inject_Z a / 1000 <= inject_Z b / 1000)%Q -> a <= b.
Proof.
  unfold Qle, Qdiv, Qmult, Qinv, inject_Z. cbn [Qnum Qden]. cbn. lia.
Qed.

Lemma nondecreasing_nil : nondecreasing [].
Proof. intros [|i] a b H; discriminate. Qed.

Lemma nondecreasing_snoc (l : list Q) (x : Q) :
  nondecreasing l -> (forall e, In e l -> (e <= x)%Q) ->
  nondecreasing (l ++ [x]).
Proof.
  intros Hl Hx i a b Ha Hb.
  destruct (Nat.lt_ge_cases (S i) (List.length l)) as [Hlt|Hge].
  - rewrite nth_error_app1 in Ha, Hb by lia. exact (Hl i a b Ha Hb).
  - assert (Hi : (i < List.length l)%nat).
    { assert (Hn : nth_error (l ++ [x]) (S i) <> None) by congruence.
      apply nth_error_Some in Hn. rewrite length_app in Hn. cbn in Hn. lia. }
    rewrite nth_error_app1 in Ha by lia.
    rewrite nth_error_app2 in Hb by lia.
    replace (S i - List.length l)%nat with O in Hb by lia.
    injection Hb as <-. apply Hx. eapply nth_error_In. exact Ha.
Qed.

(** Reduce the record projections of worlds and states, and nothing else. *)
Ltac fields :=
  cbn [world csv_filename data t0 paused_time pause_start paused sample_count
       with_world sck_level cs_level so_samples clock_queries stdin_polls
       trace console files emit print sleep fst snd].

Section Controller.

Variable env : Env.

Lemma acquire_paused (st : State) :
  paused st = true ->
  acquire env st = with_world st (emit (Sleep (1 # 10)) (world st)).
Proof. intros H. unfold acquire. now rewrite H. Qed.

Lemma acquire_running (st : State) :
  paused st = false ->
  acquire env st =
  let t_now := fst (ticks_ms env (world st)) in
  let w := snd (ticks_ms env (world st)) in
  let elapsed_time :=
    (inject_Z (ticks_diff t_now (t0 st) - paused_time st) / 1000)%Q in
  match fst (read env w) with
  | Some temp =>
      mkState
        (emit (Sleep (inject_Z SAMPLING_INTERVAL))
           (snd (print (SampleLine elapsed_time temp) (snd (read env w)))))
        (csv_filename st) (data st ++ [(elapsed_time, temp)])
        (t0 st) (paused_time st) (pause_start st) (paused st)
        (sample_count st + 1)
  | None =>
      with_world st
        (emit (Sleep (inject_Z SAMPLING_INTERVAL))
           (snd (print (Text "ERROR: Thermocouple disconnected")
                   (snd (read env w)))))
  end.
Proof.
  intros H. unfold acquire. rewrite H. cbn [negb].
  destruct (ticks_ms env (world st)) as [t_now w].
  cbn [fst snd]. destruct (read env w) as [[temp|] w']; reflexivity.
Qed.

Lemma key_q_not_p (key : option string) :
  key_is key "q" = true -> key_is key "p" = false /\ key_is key "r" = false.
Proof.
  destruct key as [s|]; cbn; [|discriminate].
  intros H. apply String.eqb_eq in H. subst s. split; reflexivity.
Qed.

(** The three ways in which the command poll falls through to the
    acquisition step: a pause taken, a resume taken, nothing done. *)
Lemma poll_commands_Next (st st1 : State) :
  poll_commands env st = Next st1 ->
  let w := polled env st in
  (key_is (key_at env st) "p" = true /\ paused st = false /\
   st1 = mkState (snd (print (Text "PAUSED") (snd (ticks_ms env w))))
           (csv_filename st) (data st) (t0 st) (paused_time st)
           (Some (fst (ticks_ms env w))) true (sample_count st))
  \/
  (key_is (key_at env st) "r" = true /\ paused st = true /\
   exists ps, pause_start st = Some ps /\
   st1 = mkState (snd (print (Text "RESUMED") (snd (ticks_ms env w))))
           (csv_filename st) (data st) (t0 st)
           (paused_time st + ticks_diff (fst (ticks_ms env w)) ps)
           (pause_start st) false (sample_count st))
  \/
  (key_is (key_at env st) "q" = false /\
   key_is (key_at env st) "p" && negb (paused st) = false /\
   key_is (key_at env st) "r" && paused st = false /\
   st1 = with_world st w).
Proof.
  unfold poll_commands, key_at, polled.
  destruct (read_keyboard env (world st)) as [key w]. cbn [fst snd].
  destruct (key_is key "p" && negb (paused st)) eqn:Ep.
  - apply andb_prop in Ep as [Ek Epa]. apply negb_true_iff in Epa.
    destruct (ticks_ms env w) as [now w']. cbn [print fst snd].
    intros H. injection H as <-. left. auto.
  - destruct (key_is key "r" && paused st) eqn:Er.
    + apply andb_prop in Er as [Ek Epa].
      destruct (ticks_ms env w) as [now w']. cbn [fst snd].
      destruct (pause_start st) as [ps|] eqn:Eps; [|discriminate].
      cbn [print]. intros H. injection H as <-. right. left.
      repeat split; try assumption. exists ps. split; reflexivity.
    + destruct (key_is key "q") eqn:Eq; [cbn [print]; discriminate|].
      intros H. injection H as <-. right. right. auto.
Qed.

Lemma poll_commands_quit (st : State) :
  key_is (key_at env st) "q" = true ->
  poll_commands env st =
  Break (with_world st (snd (print (Text "STOP") (polled env st)))).
Proof.
  unfold poll_commands, key_at, polled.
  destruct (read_keyboard env (world st)) as [key w]. cbn [fst snd].
  intros Hq. destruct (key_q_not_p key Hq) as [-> ->]. rewrite Hq.
  reflexivity.
Qed.

Lemma read_cs_level (w : World) : cs_level (snd (read env w)) = true.
Proof. now rewrite read_unfold. Qed.

Lemma read_clock_queries (w : World) :
  clock_queries (snd (read env w)) = clock_queries w.
Proof. now rewrite read_unfold. Qed.

Lemma read_console (w : World) : console (snd (read env w)) = console w.
Proof. now rewrite read_unfold. Qed.

Lemma read_files (w : World) : files (snd (read env w)) = files w.
Proof. now rewrite read_unfold. Qed.

(** What the acquisition step does to the sample store: nothing, or one
    sample appended and counted. *)
Lemma acquire_data (st : State) :
  (data (acquire env st) = data st /\
   sample_count (acquire env st) = sample_count st)
  \/
  (paused st = false /\
   exists temp,
     fst (read env (snd (ticks_ms env (world st)))) = Some temp /\
     data (acquire env st) =
       data st ++
       [((inject_Z (ticks_diff (fst (ticks_ms env (world st))) (t0 st)
                    - paused_time st) / 1000)%Q, temp)] /\
     sample_count (acquire env st) = sample_count st + 1).
Proof.
  destruct (paused st) eqn:Ep.
  - left. rewrite acquire_paused by assumption. split; reflexivity.
  - rewrite acquire_running by assumption. cbv zeta.
    destruct (fst (read env (snd (ticks_ms env (world st))))) as [temp|].
    + right. split; [reflexivity|]. exists temp. repeat split.
    + left. split; reflexivity.
Qed.

Lemma acquire_frame (st : State) :
  csv_filename (acquire env st) = csv_filename st /\
  t0 (acquire env st) = t0 st /\
  paused_time (acquire env st) = paused_time st /\
  pause_start (acquire env st) = pause_start st /\
  paused (acquire env st) = paused st.
Proof.
  destruct (paused st) eqn:Ep.
  - rewrite acquire_paused by assumption. fields. now rewrite Ep.
  - rewrite acquire_running by assumption. cbv zeta.
    destruct (fst (read env (snd (ticks_ms env (world st)))));
      fields; now rewrite Ep.
Qed.

(** The world that [acquire] leaves, in terms of what [read] left. *)
Lemma acquire_world (st : State) :
  world (acquire env st) =
  if paused st then emit (Sleep (1 # 10)) (world st)
  else
    let t_now := fst (ticks_ms env (world st)) in
    let elapsed_time :=
      (inject_Z (ticks_diff t_now (t0 st) - paused_time st) / 1000)%Q in
    let r := read env (snd (ticks_ms env (world st))) in
    emit (Sleep (inject_Z SAMPLING_INTERVAL))
      (snd (print (match fst r with
                   | Some temp => SampleLine elapsed_time temp
                   | None => Text "ERROR: Thermocouple disconnected"
                   end) (snd r))).
Proof.
  destruct (paused st) eqn:Ep.
  - now rewrite acquire_paused.
  - rewrite acquire_running by assumption. cbv zeta.
    destruct (read env (snd (ticks_ms env (world st)))) as [[temp|] w'];
      reflexivity.
Qed.

Lemma acquire_cs_level (st : State) :
  cs_level (world st) = true -> cs_level (world (acquire env st)) = true.
Proof.
  intros Hcs. rewrite acquire_world. destruct (paused st).
  - exact Hcs.
  - cbv zeta.
    pose proof (read_cs_level (snd (ticks_ms env (world st)))) as Hr.
    destruct (read env (snd (ticks_ms env (world st)))) as [r w'].
    exact Hr.
Qed.

Lemma poll_commands_frame (st st1 : State) :
  poll_commands env st = Next st1 ->
  csv_filename st1 = csv_filename st /\ data st1 = data st /\
  t0 st1 = t0 st /\ sample_count st1 = sample_count st /\
  cs_level (world st1) = cs_level (world st).
Proof.
  intros H. apply poll_commands_Next in H.
  destruct H as [(_ & _ & ->)|[(_ & _ & ps & _ & ->)|(_ & _ & _ & ->)]];
    repeat split.
Qed.

Lemma startup_fields (sck0 cs0 : bool) :
  let st := startup env (power_on sck0 cs0) in
  data st = [] /\ sample_count st = 0 /\ paused st = false /\
  pause_start st = None /\ paused_time st = 0 /\
  t0 st = ticks_of (uptime_ms env 1) /\
  cs_level (world st) = true /\ clock_queries (world st) = 2%nat.
Proof. cbv zeta. repeat split. Qed.

Lemma startup_well_formed (sck0 cs0 : bool) :
  well_formed (startup env (power_on sck0 cs0)).
Proof.
  destruct (startup_fields sck0 cs0) as (Hd & Hc & Hp & Hps & _ & _ & Hcs & _).
  unfold well_formed. rewrite Hd, Hc, Hp, Hcs.
  split; [reflexivity|]. split; [unfold TOTAL_SAMPLES; lia|].
  split; [reflexivity|discriminate].
Qed.

Lemma loop_body_well_formed (st st' : State) :
  well_formed st -> loop_guard st = true -> loop_body env st = Next st' ->
  well_formed st'.
Proof.
  intros (Hlen & Hle & Hcs & Hps) Hguard Hbody.
  unfold loop_guard in Hguard. apply Z.ltb_lt in Hguard.
  unfold loop_body in Hbody.
  destruct (poll_commands env st) as [st1| |] eqn:Hpoll; try discriminate.
  injection Hbody as <-.
  destruct (poll_commands_frame st st1 Hpoll) as (_ & Hd & _ & Hc & Hcs1).
  destruct (acquire_frame st1) as (_ & _ & _ & Hps' & Hpa').
  unfold well_formed. rewrite Hps', Hpa'.
  split; [|split; [|split]].
  - destruct (acquire_data st1) as [[-> ->]|(_ & temp & _ & -> & ->)].
    + congruence.
    + rewrite length_app, Hc, Hlen, Hd. cbn [List.length]. lia.
  - destruct (acquire_data st1) as [[_ ->]|(_ & temp & _ & _ & ->)]; lia.
  - apply acquire_cs_level. congruence.
  - apply poll_commands_Next in Hpoll.
    destruct Hpoll as [(_ & _ & ->)|[(_ & _ & ps & _ & ->)|(_ & _ & _ & ->)]];
      fields; try discriminate. exact Hps.
Qed.

Lemma reachable_well_formed (st : State) :
  reachable env st -> well_formed st.
Proof.
  induction 1 as [sck0 cs0|st st' _ IH Hguard Hbody].
  - apply startup_well_formed.
  - exact (loop_body_well_formed st st' IH Hguard Hbody).
Qed.

(** No pass from a reachable state applies [ticks_diff] to [None]. *)
Lemma loop_body_specified (st st' : State) :
  reachable env st -> loop_body env st <> Unspecified st'.
Proof.
  intros Hst Hbody.
  destruct (reachable_well_formed st Hst) as (_ & _ & _ & Hps).
  unfold loop_body in Hbody.
  destruct (poll_commands env st) as [st1|st1|st1] eqn:Hpoll;
    try discriminate.
  revert Hpoll. unfold poll_commands.
  destruct (read_keyboard env (world st)) as [key w].
  destruct (key_is key "p" && negb (paused st)).
  - destruct (ticks_ms env w). discriminate.
  - destruct (key_is key "r" && paused st) eqn:Er.
    + apply andb_prop in Er as [_ Hpa]. specialize (Hps Hpa).
      destruct (ticks_ms env w).
      destruct (pause_start st); [discriminate|congruence].
    + destruct (key_is key "q"); discriminate.
Qed.

Lemma acquisition_loop_Next (fuel : nat) (st st' : State) :
  loop_guard st = true -> loop_body env st = Next st' ->
  acquisition_loop env (S fuel) st = acquisition_loop env fuel st'.
Proof. intros Hg Hb. cbn [acquisition_loop]. now rewrite Hg, Hb. Qed.

Lemma acquisition_loop_Break (fuel : nat) (st st' : State) :
  loop_guard st = true -> loop_body env st = Break st' ->
  acquisition_loop env (S fuel) st = Some (ByBreak, st').
Proof. intros Hg Hb. cbn [acquisition_loop]. now rewrite Hg, Hb. Qed.

Lemma acquisition_loop_done (fuel : nat) (st : State) :
  loop_guard st = false ->
  acquisition_loop env fuel st = Some (GuardFalse, st).
Proof. intros Hg. destruct fuel; cbn [acquisition_loop]; now rewrite Hg. Qed.

(** Running the loop after [n] complete passes is running it from the
    state those passes lead to. *)
Lemma acquisition_loop_passes (n : nat) : forall fuel st st',
  passes env n st = Some st' ->
  acquisition_loop env (n + fuel) st = acquisition_loop env fuel st'.
Proof.
  induction n as [|n IH]; intros fuel st st'; cbn [passes].
  - now intros [= <-].
  - destruct (loop_guard st) eqn:Hguard; [|discriminate].
    destruct (loop_body env st) as [st1| |] eqn:Hbody; try discriminate.
    intros Hp. cbn [Nat.add].
    rewrite (acquisition_loop_Next _ st st1 Hguard Hbody). now apply IH.
Qed.

(** A loop that ends by its guard ends in a reachable state in which the
    guard is false. *)
Lemma acquisition_loop_GuardFalse (fuel : nat) : forall st st',
  reachable env st ->
  acquisition_loop env fuel st = Some (GuardFalse, st') ->
  reachable env st' /\ loop_guard st' = false.
Proof.
  induction fuel as [|fuel IH]; intros st st' Hst; cbn [acquisition_loop];
    destruct (loop_guard st) eqn:Hguard; try discriminate.
  - intros [= <-]. now split.
  - destruct (loop_body env st) as [st1| |] eqn:Hbody; try discriminate.
    apply IH. exact (reach_next env st st1 Hst Hguard Hbody).
  - intros [= <-]. now split.
Qed.

(** Nothing is written to the file system while the loop runs. *)
Lemma reachable_no_files (st : State) :
  reachable env st -> files (world st) = [].
Proof.
  induction 1 as [sck0 cs0|st st' _ IH Hguard Hbody]; [reflexivity|].
  unfold loop_body in Hbody.
  destruct (poll_commands env st) as [st1| |] eqn:Hpoll; try discriminate.
  injection Hbody as <-. rewrite acquire_world.
  assert (H1 : files (world st1) = []).
  { apply poll_commands_Next in Hpoll.
    destruct Hpoll as [(_ & _ & ->)|[(_ & _ & ps & _ & ->)|(_ & _ & _ & ->)]];
      exact IH. }
  destruct (paused st1); [exact H1|]. cbv zeta.
  pose proof (read_files (snd (ticks_ms env (world st1)))) as Hr.
  destruct (read env (snd (ticks_ms env (world st1)))) as [r w'].
  cbn [snd fst print emit files] in *. now rewrite Hr.
Qed.

Lemma passes_reachable (n : nat) : forall st st',
  reachable env st -> passes env n st = Some st' -> reachable env st'.
Proof.
  induction n as [|n IH]; intros st st' Hst; cbn [passes].
  - now intros [= <-].
  - destruct (loop_guard st) eqn:Hguard; [|discriminate].
    destruct (loop_body env st) as [st1| |] eqn:Hbody; try discriminate.
    apply IH. exact (reach_next env st st1 Hst Hguard Hbody).
Qed.

Lemma after_reachable (n : nat) (sck0 cs0 : bool) :
  reachable env (after env n sck0 cs0).
Proof.
  induction n as [|n IH]; cbn [after].
  - constructor.
  - destruct (loop_guard (after env n sck0 cs0)) eqn:Hguard; [|exact IH].
    destruct (loop_body env (after env n sck0 cs0)) as [st1| |] eqn:Hbody;
      try exact IH.
    exact (reach_next env _ st1 IH Hguard Hbody).
Qed.

End Controller.

(** ** Elapsed-time accounting *)

Section Timing.

Variable env : Env.
Hypothesis clock_ok : monotonic_clock env.

Lemma acquire_clock_queries (st : State) :
  clock_queries (world (acquire env st)) =
  if paused st then clock_queries (world st)
  else S (clock_queries (world st)).
Proof.
  rewrite acquire_world. destruct (paused st); [reflexivity|]. cbv zeta.
  pose proof (read_clock_queries env (snd (ticks_ms env (world st)))) as Hr.
  destruct (read env (snd (ticks_ms env (world st)))) as [r w'].
  cbn [fst snd print emit clock_queries] in *. now rewrite Hr.
Qed.

Lemma poll_commands_clock_queries (st st1 : State) :
  poll_commands env st = Next st1 ->
  (clock_queries (world st) <= clock_queries (world st1))%nat.
Proof.
  intros H. apply poll_commands_Next in H.
  destruct H as [(_ & _ & ->)|[(_ & _ & ps & _ & ->)|(_ & _ & _ & ->)]];
    unfold polled, read_keyboard, ticks_ms; fields; lia.
Qed.

Lemma within_half_period_le (st st' : State) :
  (clock_queries (world st) <= clock_queries (world st'))%nat ->
  within_half_period env st' -> within_half_period env st.
Proof. intros Hle H n Hn. apply H. lia. Qed.

Lemma startup_timing (sck0 cs0 : bool) :
  timing_inv env (startup env (power_on sck0 cs0)).
Proof.
  destruct (startup_fields env sck0 cs0)
    as (Hd & _ & Hp & _ & _ & Ht0 & _ & Hq).
  unfold timing_inv. rewrite Hd, Hp, Hq. split; [exact Ht0|].
  exists 1%nat. split; [lia|]. split; [discriminate|].
  split; [apply nondecreasing_nil|]. intros e [].
Qed.

Lemma poll_commands_timing (st st1 : State) :
  poll_commands env st = Next st1 ->
  within_half_period env st1 ->
  timing_inv env st -> timing_inv env st1.
Proof.
  intros Hpoll Hrange (Ht0 & k & Hk & Hps & Hsorted & Hbound).
  apply poll_commands_Next in Hpoll. cbv zeta in Hpoll.
  destruct Hpoll as [(_ & Hpa & ->)|[(_ & Hpa & ps & Eps & ->)|(_ & _ & _ & ->)]].
  - (* pause taken at query c *)
    split; [exact Ht0|]. exists (clock_queries (world st)). fields.
    split; [unfold polled, read_keyboard, ticks_ms; fields; lia|].
    split; [reflexivity|]. split; [exact Hsorted|].
    intros e He. eapply Qle_trans; [exact (Hbound e He)|].
    apply Qle_ms. pose proof (clock_ok k (clock_queries (world st))). lia.
  - (* resume taken at query c *)
    unfold within_half_period in Hrange. revert Hrange.
    unfold polled, read_keyboard, ticks_ms. fields. intros Hrange.
    split; [exact Ht0|]. exists (clock_queries (world st)). fields.
    split; [lia|]. split; [discriminate|]. split; [exact Hsorted|].
    intros e He. eapply Qle_trans; [exact (Hbound e He)|].
    apply Qle_ms.
    specialize (Hps Hpa). rewrite Eps in Hps. injection Hps as ->.
    pose proof (clock_ok k (clock_queries (world st))).
    pose proof (clock_ok 1%nat k).
    pose proof (Hrange (clock_queries (world st))).
    rewrite ticks_diff_exact by lia. lia.
  - (* no command *)
    split; [exact Ht0|]. exists k. fields.
    split; [unfold polled, read_keyboard; fields; lia|].
    split; [exact Hps|]. split; [exact Hsorted|]. exact Hbound.
Qed.

Lemma acquire_timing (st : State) :
  within_half_period env (acquire env st) ->
  timing_inv env st -> timing_inv env (acquire env st).
Proof.
  intros Hrange (Ht0 & k & Hk & Hps & Hsorted & Hbound).
  unfold within_half_period in Hrange.
  rewrite acquire_clock_queries in Hrange.
  destruct (acquire_frame env st) as (_ & Et0 & Ept & Eps & Epa).
  unfold timing_inv.
  rewrite Et0, Ept, Eps, Epa, acquire_clock_queries.
  split; [exact Ht0|].
  destruct (acquire_data env st) as [[-> _]|(Hrun & temp & _ & -> & _)].
  - (* nothing stored *)
    exists k. split; [destruct (paused st); lia|].
    split; [exact Hps|]. split; [exact Hsorted|]. exact Hbound.
  - (* one sample stored, timed at query c *)
    rewrite Hrun in *. unfold ticks_ms at 1 2. fields. rewrite Ht0.
    pose proof (clock_ok 1%nat (clock_queries (world st))).
    pose proof (clock_ok k (clock_queries (world st))).
    pose proof (Hrange (clock_queries (world st))).
    rewrite ticks_diff_exact by lia.
    exists (clock_queries (world st)). split; [lia|].
    split; [discriminate|].
    assert (Hold : forall e, In e (map fst (data st)) ->
              (e <= inject_Z (uptime_ms env (clock_queries (world st))
                              - uptime_ms env 1 - paused_time st) / 1000)%Q).
    { intros e He. eapply Qle_trans; [exact (Hbound e He)|].
      apply Qle_ms. lia. }
    rewrite map_app. cbn [map fst]. split.
    + apply nondecreasing_snoc; assumption.
    + intros e He. apply in_app_or in He. destruct He as [He|[<-|[]]].
      * now apply Hold.
      * apply Qle_refl.
Qed.

(** The timing invariant holds whenever the guard is evaluated, as long as
    the run has stayed within half a tick period of its start. *)
Lemma reachable_timing (st : State) :
  reachable env st -> within_half_period env st -> timing_inv env st.
Proof.
  induction 1 as [sck0 cs0|st st' _ IH Hguard Hbody]; intros Hrange.
  - apply startup_timing.
  - unfold loop_body in Hbody.
    destruct (poll_commands env st) as [st1| |] eqn:Hpoll; try discriminate.
    injection Hbody as <-.
    assert (H1 : (clock_queries (world st1)
                  <= clock_queries (world (acquire env st1)))%nat)
      by (rewrite acquire_clock_queries; destruct (paused st1); lia).
    pose proof (poll_commands_clock_queries st st1 Hpoll) as H0.
    apply acquire_timing; [exact Hrange|].
    apply (poll_commands_timing st st1 Hpoll).
    + exact (within_half_period_le st1 _ H1 Hrange).
    + apply IH. apply (within_half_period_le st (acquire env st1)); [lia|].
      exact Hrange.
Qed.

(** Within half a tick period of the start, the number of milliseconds a
    running pass divides by 1000 is the true uptime since the start reading
    minus the cumulative paused duration. *)
Lemma elapsed_ms_true_time (st st1 : State) :
  reachable env st ->
  poll_commands env st = Next st1 ->
  within_half_period env (acquire env st1) ->
  paused st1 = false ->
  t0 st = ticks_of (uptime_ms env 1) /\
  elapsed_ms (fst (ticks_ms env (world st1))) st1 =
    (uptime_ms env (clock_queries (world st1)) - uptime_ms env 1)
    - paused_time st1.
Proof.
  intros Hst Hpoll Hrange Hrun.
  pose proof (poll_commands_clock_queries st st1 Hpoll) as Hq1.
  assert (Hq : (clock_queries (world st)
                <= clock_queries (world (acquire env st1)))%nat)
    by (rewrite acquire_clock_queries, Hrun; lia).
  destruct (reachable_timing st Hst (within_half_period_le _ _ Hq Hrange))
    as (Ht0 & k & Hk & _).
  destruct (poll_commands_frame env st st1 Hpoll) as (_ & _ & Ht0' & _ & _).
  split; [exact Ht0|].
  unfold within_half_period in Hrange.
  rewrite acquire_clock_queries, Hrun in Hrange.
  pose proof (Hrange (clock_queries (world st1))) as Hlate.
  pose proof (clock_ok 1%nat (clock_queries (world st1))) as Hearly.
  unfold elapsed_ms, ticks_ms. fields. rewrite Ht0', Ht0.
  rewrite ticks_diff_exact by lia. reflexivity.
Qed.


End Timing.

(** ** A run that reaches the quota *)

Section SteadyRun.

Variables (word period : Z).
Hypothesis word_range : 0 <= word < 2 ^ 16.
Hypothesis no_fault : Z.testbit word 2 = false.

Local Abbreviation env := (steady_env word period no_keys).

Lemma steady_read (w : World) :
  (so_samples w mod 16 = 0)%nat ->
  fst (read env w) = Some (inject_Z (Z.shiftr word 3) * (1 # 4))%Q.
Proof.
  intros Hw. rewrite (read_presented_word env w word word_range).
  { now rewrite no_fault. }
  intros i Hi. cbn [steady_env so_level]. do 2 f_equal.
  rewrite <- Nat.Div0.add_mod_idemp_l, Hw. cbn [Nat.add].
  now rewrite Nat.mod_small.
Qed.

Lemma read_so_samples (e : Env) (w : World) :
  so_samples (snd (read e w)) = (so_samples w + 16)%nat.
Proof. now rewrite read_unfold. Qed.

(** With a silent operator and a connected sensor, every pass stores one
    sample. *)
Lemma steady_pass (st : State) :
  paused st = false -> (so_samples (world st) mod 16 = 0)%nat ->
  exists st',
    loop_body env st = Next st' /\
    paused st' = false /\ (so_samples (world st') mod 16 = 0)%nat /\
    sample_count st' = sample_count st + 1.
Proof.
  intros Hrun Hso.
  assert (Hpoll : poll_commands env st = Next (with_world st (polled env st))).
  { unfold poll_commands, polled, read_keyboard.
    cbn [steady_env stdin_line no_keys option_map key_is andb fst snd].
    reflexivity. }
  exists (acquire env (with_world st (polled env st))).
  split; [unfold loop_body; now rewrite Hpoll|].
  destruct (acquire_frame env (with_world st (polled env st)))
    as (_ & _ & _ & _ & ->).
  split; [exact Hrun|].
  assert (Hread : fst (read env (snd (ticks_ms env (polled env st)))) =
                  Some (inject_Z (Z.shiftr word 3) * (1 # 4))%Q)
    by (apply steady_read; exact Hso).
  split.
  - rewrite acquire_world. fields. rewrite Hrun. cbv zeta.
    pose proof (read_so_samples env (snd (ticks_ms env (polled env st))))
      as Hr.
    destruct (read env (snd (ticks_ms env (polled env st)))) as [r w'].
    cbn [fst snd print emit so_samples] in *. rewrite Hr.
    unfold ticks_ms, polled, read_keyboard. fields.
    rewrite <- Nat.Div0.add_mod_idemp_l, Hso. reflexivity.
  - destruct (acquire_data env (with_world st (polled env st)))
      as [[_ _]|(_ & temp & _ & _ & ->)]; [|reflexivity].
    rewrite acquire_running by exact Hrun. cbv zeta. fields.
    fold (polled env st). now rewrite Hread.
Qed.

Lemma steady_passes (n : nat) : forall st,
  paused st = false -> (so_samples (world st) mod 16 = 0)%nat ->
  sample_count st + Z.of_nat n <= TOTAL_SAMPLES ->
  exists st',
    passes env n st = Some st' /\
    paused st' = false /\ (so_samples (world st') mod 16 = 0)%nat /\
    sample_count st' = sample_count st + Z.of_nat n.
Proof.
  induction n as [|n IH]; intros st Hrun Hso Hquota.
  - exists st. cbn [passes]. repeat split; try assumption. cbn. lia.
  - destruct (steady_pass st Hrun Hso) as (st1 & Hbody & Hrun1 & Hso1 & Hc1).
    destruct (IH st1 Hrun1 Hso1) as (st' & Hp & Hrun' & Hso' & Hc'); [lia|].
    exists st'. cbn [passes].
    assert (Hguard : loop_guard st = true)
      by (unfold loop_guard; apply Z.ltb_lt; lia).
    rewrite Hguard, Hbody. repeat split; try assumption. lia.
Qed.

(** X10.  With a connected sensor that keeps answering with the same
    fault-free word and a silent operator, the loop is left by its guard
    after 180 passes, with 180 samples. *)
Theorem steady_run_reaches_quota (sck0 cs0 : bool) (fuel : nat) :
  exists st',
    acquisition_loop env (180 + fuel) (startup env (power_on sck0 cs0)) =
      Some (GuardFalse, st') /\
    sample_count st' = 180 /\ List.length (data st') = 180%nat.
Proof.
  destruct (steady_passes 180 (startup env (power_on sck0 cs0)))
    as (st' & Hp & _ & _ & Hc); [reflexivity|reflexivity| |].
  { change (sample_count (startup env (power_on sck0 cs0))) with 0.
    unfold TOTAL_SAMPLES. lia. }
  change (sample_count (startup env (power_on sck0 cs0))) with 0 in Hc.
  assert (Hreach : reachable env st')
    by exact (passes_reachable env 180 _ st' (reach_start env sck0 cs0) Hp).
  destruct (reachable_well_formed env st' Hreach) as (Hlen & _).
  exists st'. rewrite (acquisition_loop_passes env 180 fuel _ st' Hp).
  split; [|split; lia].
  apply acquisition_loop_done. unfold loop_guard, TOTAL_SAMPLES.
  apply Z.ltb_ge. lia.
Qed.

End SteadyRun.

(** ** Properties of the acquisition loop *)

(** C4 (chip-select idle-high).  The constructor idles chip-select high;
    [read] leaves it high when it returns the fault signal and when it
    returns a temperature; hence chip-select is high whenever the loop
    guard is evaluated and whenever the loop calls [read]. *)
Theorem chip_select_idle_high (env : Env) (st : State) :
  reachable env st ->
  (forall w, cs_level (snd (MAX6675_init w)) = true) /\
  (forall w, fst (read env w) = None -> cs_level (snd (read env w)) = true) /\
  (forall w t,
     fst (read env w) = Some t -> cs_level (snd (read env w)) = true) /\
  cs_level (world st) = true /\
  (forall st1,
     poll_commands env st = Next st1 ->
     cs_level (read_world env st1) = true /\
     cs_level (world (acquire env st1)) = true).
Proof.
  intros Hst.
  destruct (reachable_well_formed env st Hst) as (_ & _ & Hcs & _).
  split; [reflexivity|].
  split; [intros w _; apply read_cs_level|].
  split; [intros w t _; apply read_cs_level|].
  split; [exact Hcs|].
  intros st1 Hpoll.
  destruct (poll_commands_frame env st st1 Hpoll) as (_ & _ & _ & _ & Hcs1).
  split.
  - unfold read_world, ticks_ms. cbn [snd cs_level]. congruence.
  - apply acquire_cs_level. congruence.
Qed.

(** C10 (counter and store move together).  Whenever the loop guard is
    evaluated, [sample_count] is the length of [data], so the guard bounds
    the number of stored samples; a pass of the loop body either leaves
    both unchanged or appends one sample and adds one to the counter. *)
Theorem sample_count_is_length (env : Env) (st : State) :
  reachable env st ->
  sample_count st = Z.of_nat (List.length (data st)) /\
  loop_guard st = (Z.of_nat (List.length (data st)) <? TOTAL_SAMPLES) /\
  (forall st',
     loop_body env st = Next st' ->
     (data st' = data st /\ sample_count st' = sample_count st) \/
     (exists s, data st' = data st ++ [s] /\
                sample_count st' = sample_count st + 1)) /\
  (forall st',
     loop_body env st = Break st' ->
     data st' = data st /\ sample_count st' = sample_count st).
Proof.
  intros Hst.
  destruct (reachable_well_formed env st Hst) as (Hlen & _).
  split; [exact Hlen|]. split; [unfold loop_guard; now rewrite Hlen|].
  split.
  - intros st' Hbody. unfold loop_body in Hbody.
    destruct (poll_commands env st) as [st1| |] eqn:Hpoll; try discriminate.
    injection Hbody as <-.
    destruct (poll_commands_frame env st st1 Hpoll) as (_ & Hd & _ & Hc & _).
    destruct (acquire_data env st1) as [[-> ->]|(_ & temp & _ & -> & ->)].
    + left. now split.
    + right. eexists. rewrite Hd, Hc. split; reflexivity.
  - intros st' Hbody. unfold loop_body in Hbody.
    destruct (key_is (key_at env st) "q") eqn:Hq.
    + rewrite (poll_commands_quit env st Hq) in Hbody.
      injection Hbody as <-. split; reflexivity.
    + destruct (poll_commands env st) as [st1|st1|] eqn:Hpoll;
        try discriminate.
      exfalso. revert Hpoll. unfold poll_commands.
      fold (key_at env st). unfold key_at in *.
      destruct (read_keyboard env (world st)) as [key w]. cbn [fst] in Hq.
      rewrite Hq.
      destruct (key_is key "p" && negb (paused st)).
      * destruct (ticks_ms env w). discriminate.
      * destruct (key_is key "r" && paused st); [|discriminate].
        destruct (ticks_ms env w). destruct (pause_start st); discriminate.
Qed.

(** C5 (fault is a skipped sample).  In a pass of the loop body that gets
    past the command poll in the running state and in which [read] returns
    [None], the controller prints the warning line, stores no sample, leaves
    the counter as it was, and the loop goes on with the next pass. *)
Theorem fault_skips_sample (env : Env) (st st1 : State) :
  loop_guard st = true ->
  poll_commands env st = Next st1 ->
  paused st1 = false ->
  fst (read env (read_world env st1)) = None ->
  exists st',
    loop_body env st = Next st' /\
    console (world st') =
      console (world st1) ++ [Text "ERROR: Thermocouple disconnected"] /\
    data st' = data st /\
    sample_count st' = sample_count st /\
    loop_guard st' = true /\
    forall fuel,
      acquisition_loop env (S fuel) st = acquisition_loop env fuel st'.
Proof.
  intros Hguard Hpoll Hrun Hfault. unfold read_world in Hfault.
  exists (acquire env st1).
  assert (Hbody : loop_body env st = Next (acquire env st1))
    by (unfold loop_body; now rewrite Hpoll).
  destruct (poll_commands_frame env st st1 Hpoll) as (_ & Hd & _ & Hc & _).
  assert (Hacq : data (acquire env st1) = data st /\
                 sample_count (acquire env st1) = sample_count st).
  { destruct (acquire_data env st1) as [[-> ->]|(_ & temp & Ht & _)].
    - now split.
    - congruence. }
  destruct Hacq as [Hd' Hc'].
  split; [exact Hbody|]. split.
  - rewrite acquire_world, Hrun. cbv zeta.
    pose proof (read_console env (snd (ticks_ms env (world st1)))) as Hr.
    destruct (read env (snd (ticks_ms env (world st1)))) as [r w'].
    cbn [fst] in Hfault. subst r.
    cbn [fst snd print emit console] in *. now rewrite Hr.
  - split; [exact Hd'|]. split; [exact Hc'|]. split.
    + unfold loop_guard in *. now rewrite Hc'.
    + intros fuel. now apply acquisition_loop_Next.
Qed.

(** C6 (quota).  Whenever the loop guard is evaluated the counter, which is
    the number of stored samples, is at most 180.  Once it is 180 the loop
    runs no further pass; a loop that ends by its guard ends with exactly
    180 stored samples; and a pass in which [read] returns [None] leaves
    the counter as it was. *)
Theorem quota_is_exactly_180 (env : Env) (st : State) :
  reachable env st ->
  0 <= sample_count st <= 180 /\
  (List.length (data st) <= 180)%nat /\
  (sample_count st = 180 ->
   forall fuel, acquisition_loop env fuel st = Some (GuardFalse, st)) /\
  (forall fuel st',
     acquisition_loop env fuel st = Some (GuardFalse, st') ->
     sample_count st' = 180 /\ List.length (data st') = 180%nat) /\
  (forall st1,
     poll_commands env st = Next st1 ->
     fst (read env (read_world env st1)) = None ->
     sample_count (acquire env st1) = sample_count st /\
     data (acquire env st1) = data st).
Proof.
  intros Hst.
  destruct (reachable_well_formed env st Hst) as (Hlen & Hle & _).
  unfold TOTAL_SAMPLES in Hle.
  split; [lia|]. split; [lia|]. split; [|split].
  - intros H180 fuel. apply acquisition_loop_done.
    unfold loop_guard, TOTAL_SAMPLES. apply Z.ltb_ge. lia.
  - intros fuel st' Hloop.
    destruct (acquisition_loop_GuardFalse env fuel st st' Hst Hloop)
      as [Hst' Hguard].
    destruct (reachable_well_formed env st' Hst') as (Hlen' & Hle' & _).
    unfold loop_guard in Hguard. apply Z.ltb_ge in Hguard.
    unfold TOTAL_SAMPLES in *. lia.
  - intros st1 Hpoll Hfault. unfold read_world in Hfault.
    destruct (poll_commands_frame env st st1 Hpoll) as (_ & Hd & _ & Hc & _).
    destruct (acquire_data env st1) as [[-> ->]|(_ & temp & Ht & _)].
    + now split.
    + congruence.
Qed.

(** C9 (quit short-circuit).  If the pass that follows [n] complete passes
    of a run consumes the command [q], in the running or in the paused
    state, the loop ends in that pass by [break], with the quota not
    reached and the stored samples and their count untouched; the program
    then writes exactly one CSV file when there are samples, holding the
    header line followed by one line per stored sample, in storage order,
    and writes no file when there are none. *)
Theorem quit_ends_run_keeping_samples
        (env : Env) (n k : nat) (sck0 cs0 : bool) (st : State) :
  passes env n (startup env (power_on sck0 cs0)) = Some st ->
  loop_guard st = true ->
  key_is (key_at env st) "q" = true ->
  exists st',
    loop_body env st = Break st' /\
    acquisition_loop env (n + S k) (startup env (power_on sck0 cs0))
      = Some (ByBreak, st') /\
    data st' = data st /\
    sample_count st' = sample_count st /\
    sample_count st' < TOTAL_SAMPLES /\
    exists W,
      main env (n + S k) (power_on sck0 cs0) = Some (ByBreak, W) /\
      files W =
        match data st with
        | [] => []
        | _ :: _ =>
            [(csv_filename st,
              Text "time_seconds,temperature_C"
              :: map (fun s => SampleLine (fst s) (snd s)) (data st))]
        end.
Proof.
  intros Hpasses Hguard Hq.
  set (st' := with_world st (snd (print (Text "STOP") (polled env st)))).
  assert (Hbody : loop_body env st = Break st')
    by (unfold loop_body; now rewrite (poll_commands_quit env st Hq)).
  assert (Hloop : acquisition_loop env (n + S k)
                    (startup env (power_on sck0 cs0)) = Some (ByBreak, st')).
  { rewrite (acquisition_loop_passes env n (S k) _ st Hpasses).
    now apply acquisition_loop_Break. }
  assert (Hfiles : files (world st) = []).
  { apply (reachable_no_files env).
    exact (passes_reachable env n _ st (reach_start env sck0 cs0) Hpasses). }
  exists st'. split; [exact Hbody|]. split; [exact Hloop|].
  split; [reflexivity|]. split; [reflexivity|]. split.
  - unfold loop_guard in Hguard. now apply Z.ltb_lt in Hguard.
  - unfold main. rewrite Hloop. cbn [print]. eexists. split; [reflexivity|].
    unfold write_out. subst st'. fields.
    destruct (data st) as [|s l].
    + cbn [snd print files]. unfold polled, read_keyboard. fields.
      exact Hfiles.
    + unfold write_csv. cbn [snd print files]. unfold polled, read_keyboard.
      fields. now rewrite Hfiles.
Qed.

(** C7, as the code has it.  With a clock that never runs backwards, and as
    long as every clock reading of the run so far was taken less than half
    a tick period ([2^29] ms) after the start reading, the elapsed times of
    adjacent stored samples never decrease. *)
Theorem elapsed_nondecreasing (env : Env) (st : State) :
  reachable env st ->
  monotonic_clock env ->
  within_half_period env st ->
  nondecreasing (map fst (data st)).
Proof.
  intros Hst Hmono Hrange.
  destruct (reachable_timing env Hmono st Hst Hrange)
    as (_ & k & _ & _ & Hsorted & _).
  exact Hsorted.
Qed.

Lemma demo_env_monotonic : monotonic_clock demo_env.
Proof. intros i j Hij. cbn [demo_env steady_env uptime_ms]. lia. Qed.

Lemma operator_env_monotonic : monotonic_clock operator_env.
Proof. intros i j Hij. cbn [operator_env steady_env uptime_ms]. lia. Qed.

Lemma elapsed_nondecreasing_witness :
  reachable demo_env (after demo_env 3 false true) /\
  monotonic_clock demo_env /\
  within_half_period demo_env (after demo_env 3 false true) /\
  map fst (data (after demo_env 3 false true)) =
    [inject_Z 1000 / 1000; inject_Z 2000 / 1000; inject_Z 3000 / 1000]%Q /\
  nondecreasing (map fst (data (after demo_env 3 false true))).
Proof.
  assert (Hreach : reachable demo_env (after demo_env 3 false true)).
  { apply (passes_reachable demo_env 3 _ _ (reach_start demo_env false true)).
    vm_compute. reflexivity. }
  assert (Hrange : within_half_period demo_env (after demo_env 3 false true)).
  { intros n Hn.
    change (clock_queries (world (after demo_env 3 false true)))
      with 5%nat in Hn.
    cbn [demo_env steady_env uptime_ms]. change (TICKS_PERIOD / 2) with (2 ^ 29).
    lia. }
  split; [exact Hreach|]. split; [exact demo_env_monotonic|].
  split; [exact Hrange|]. split; [vm_compute; reflexivity|].
  exact (elapsed_nondecreasing demo_env (after demo_env 3 false true)
           Hreach demo_env_monotonic Hrange).
Defined.

(** C7 as stated fails: with a monotonic clock whose second sample falls
    [2^29] ms after the start, [ticks_diff] wraps and the second stored
    elapsed time is negative, below the first. *)
Lemma elapsed_decreases_after_half_period :
  monotonic_clock late_env /\
  reachable late_env (after late_env 2 false true) /\
  map fst (data (after late_env 2 false true)) =
    [inject_Z 1 / 1000; inject_Z (- 2 ^ 29) / 1000]%Q /\
  ~ (inject_Z 1 / 1000 <= inject_Z (- 2 ^ 29) / 1000)%Q /\
  ~ nondecreasing (map fst (data (after late_env 2 false true))).
Proof.
  assert (Hmono : monotonic_clock late_env).
  { intros i j Hij. cbn [late_env uptime_ms].
    destruct (Nat.leb_spec i 1), (Nat.leb_spec j 1),
      (Nat.eqb_spec i 2), (Nat.eqb_spec j 2); lia. }
  assert (Hdata : map fst (data (after late_env 2 false true)) =
                  [inject_Z 1 / 1000; inject_Z (- 2 ^ 29) / 1000]%Q)
    by (vm_compute; reflexivity).
  assert (Hlt : ~ (inject_Z 1 / 1000 <= inject_Z (- 2 ^ 29) / 1000)%Q).
  { intros H. apply Qle_ms_inv in H. lia. }
  split; [exact Hmono|]. split.
  { apply (passes_reachable late_env 2 _ _ (reach_start late_env false true)).
    vm_compute. reflexivity. }
  split; [exact Hdata|]. split; [exact Hlt|].
  intros Hsorted. apply Hlt. apply (Hsorted O); rewrite Hdata; reflexivity.
Qed.



(** ** The theorems at concrete runs *)

Lemma chip_select_idle_high_witness :
  reachable demo_env (after demo_env 2 false false) /\
  cs_level (world (after demo_env 2 false false)) = true /\
  cs_level (world (acquire demo_env
                     (after_poll demo_env (after demo_env 2 false false))))
    = true.
Proof.
  assert (Hreach : reachable demo_env (after demo_env 2 false false)).
  { apply (passes_reachable demo_env 2 _ _ (reach_start demo_env false false)).
    vm_compute. reflexivity. }
  destruct (chip_select_idle_high demo_env _ Hreach)
    as (_ & _ & _ & Hcs & Hpass).
  split; [exact Hreach|]. split; [exact Hcs|].
  apply (Hpass (after_poll demo_env (after demo_env 2 false false))).
  vm_compute. reflexivity.
Defined.

Lemma sample_count_is_length_witness :
  reachable demo_env (after demo_env 3 false true) /\
  sample_count (after demo_env 3 false true) = 3 /\
  sample_count (after demo_env 3 false true) =
    Z.of_nat (List.length (data (after demo_env 3 false true))).
Proof.
  assert (Hreach : reachable demo_env (after demo_env 3 false true)).
  { apply (passes_reachable demo_env 3 _ _ (reach_start demo_env false true)).
    vm_compute. reflexivity. }
  split; [exact Hreach|]. split; [vm_compute; reflexivity|].
  exact (proj1 (sample_count_is_length demo_env _ Hreach)).
Defined.

Lemma fault_skips_sample_witness :
  loop_guard (after fault_env 1 false true) = true /\
  poll_commands fault_env (after fault_env 1 false true) =
    Next (after_poll fault_env (after fault_env 1 false true)) /\
  paused (after_poll fault_env (after fault_env 1 false true)) = false /\
  fst (read fault_env
         (read_world fault_env
            (after_poll fault_env (after fault_env 1 false true)))) = None /\
  exists st',
    loop_body fault_env (after fault_env 1 false true) = Next st' /\
    console (world st') =
      console (world (after_poll fault_env (after fault_env 1 false true)))
      ++ [Text "ERROR: Thermocouple disconnected"] /\
    data st' = data (after fault_env 1 false true) /\
    sample_count st' = sample_count (after fault_env 1 false true) /\
    loop_guard st' = true /\
    forall fuel,
      acquisition_loop fault_env (S fuel) (after fault_env 1 false true) =
      acquisition_loop fault_env fuel st'.
Proof.
  assert (H1 : loop_guard (after fault_env 1 false true) = true)
    by (vm_compute; reflexivity).
  assert (H2 : poll_commands fault_env (after fault_env 1 false true) =
               Next (after_poll fault_env (after fault_env 1 false true)))
    by (vm_compute; reflexivity).
  assert (H3 : paused (after_poll fault_env (after fault_env 1 false true))
               = false) by (vm_compute; reflexivity).
  assert (H4 : fst (read fault_env
                 (read_world fault_env
                    (after_poll fault_env (after fault_env 1 false true))))
               = None) by (vm_compute; reflexivity).
  split; [exact H1|]. split; [exact H2|]. split; [exact H3|].
  split; [exact H4|].
  exact (fault_skips_sample fault_env _ _ H1 H2 H3 H4).
Defined.

Lemma quota_is_exactly_180_witness :
  reachable demo_env (after demo_env 2 false true) /\
  sample_count (after demo_env 2 false true) = 2 /\
  0 <= sample_count (after demo_env 2 false true) <= 180 /\
  (List.length (data (after demo_env 2 false true)) <= 180)%nat.
Proof.
  assert (Hreach : reachable demo_env (after demo_env 2 false true)).
  { apply (passes_reachable demo_env 2 _ _ (reach_start demo_env false true)).
    vm_compute. reflexivity. }
  destruct (quota_is_exactly_180 demo_env _ Hreach) as (Hcount & Hlen & _).
  split; [exact Hreach|]. split; [vm_compute; reflexivity|].
  split; [exact Hcount|exact Hlen].
Defined.


Lemma quit_ends_run_keeping_samples_witness :
  passes operator_env 5 (startup operator_env (power_on false true)) =
    Some (after operator_env 5 false true) /\
  loop_guard (after operator_env 5 false true) = true /\
  key_is (key_at operator_env (after operator_env 5 false true)) "q" = true /\
  exists st',
    loop_body operator_env (after operator_env 5 false true) = Break st' /\
    acquisition_loop operator_env (5 + 1)
      (startup operator_env (power_on false true)) = Some (ByBreak, st') /\
    data st' = data (after operator_env 5 false true) /\
    sample_count st' = sample_count (after operator_env 5 false true) /\
    sample_count st' < TOTAL_SAMPLES /\
    exists W,
      main operator_env (5 + 1) (power_on false true) = Some (ByBreak, W) /\
      files W =
        match data (after operator_env 5 false true) with
        | [] => []
        | _ :: _ =>
            [(csv_filename (after operator_env 5 false true),
              Text "time_seconds,temperature_C"
              :: map (fun s => SampleLine (fst s) (snd s))
                   (data (after operator_env 5 false true)))]
        end.
Proof.
  assert (H1 : passes operator_env 5
                 (startup operator_env (power_on false true)) =
               Some (after operator_env 5 false true))
    by (vm_compute; reflexivity).
  assert (H2 : loop_guard (after operator_env 5 false true) = true)
    by (vm_compute; reflexivity).
  assert (H3 : key_is (key_at operator_env (after operator_env 5 false true))
                 "q" = true) by (vm_compute; reflexivity).
  split; [exact H1|]. split; [exact H2|]. split; [exact H3|].
  exact (quit_ends_run_keeping_samples operator_env 5 0 false true _ H1 H2 H3).
Defined.

(** The whole program on the operator's run: three samples, at 1 s, 3 s
    and 4 s of active time (the pause of 1 s is left out), written to the
    CSV file after the quit. *)
Example operator_run_output :
  option_map (fun r => (fst r, files (snd r)))
    (main operator_env 6 (power_on false true)) =
  Some (ByBreak,
        [("temp_0.csv"%string,
          [Text "time_seconds,temperature_C";
           SampleLine (inject_Z 1000 / 1000) (inject_Z 400 * (1 # 4));
           SampleLine (inject_Z 3000 / 1000) (inject_Z 400 * (1 # 4));
           SampleLine (inject_Z 4000 / 1000) (inject_Z 400 * (1 # 4))])]).
Proof. vm_compute. reflexivity. Qed.

(** * Further properties of the driver *)

Lemma so_bits_split (env : Env) (k n m : nat) :
  so_bits env k (n + m) = so_bits env k n ++ so_bits env (k + n) m.
Proof. unfold so_bits. now rewrite seq_app, map_app. Qed.

(** The 16-bit value in terms of its first 13 bits and its last three. *)
Lemma fold_shift_in_last3 (v13 : Z) (b13 b14 b15 : bool) :
  fold_left shift_in [b13; b14; b15] v13 =
  8 * v13 + (4 * Z.b2z b13 + 2 * Z.b2z b14 + Z.b2z b15).
Proof. cbn [fold_left]. rewrite !shift_in_arith. lia. Qed.

Lemma b2z_range (b : bool) : 0 <= Z.b2z b <= 1.
Proof. destruct b; cbn; lia. Qed.

(** X1.  Only the first 14 samples of a read matter.  The sample taken on pulse
    13 alone decides between fault and temperature; the temperature is a
    quarter of the 13-bit number formed, most significant bit first, by the
    samples of pulses 0 to 12; the samples of pulses 14 and 15 are
    ignored. *)
Theorem read_uses_first_14_samples (env : Env) (w : World) :
  let m := fold_left shift_in (so_bits env (so_samples w) 13) 0 in
  0 <= m < 2 ^ 13 /\
  fst (read env w) =
  if so_level env (so_samples w + 13) then None
  else Some (inject_Z m * (1 # 4))%Q.
Proof.
  cbv zeta.
  pose proof (fold_shift_in_bounds (so_bits env (so_samples w) 13) 0) as Hm.
  rewrite so_bits_length in Hm. specialize (Hm (Z.le_refl 0)).
  split; [change (Z.of_nat 13) with 13 in Hm; lia|].
  rewrite read_unfold. cbn [fst]. rewrite clock_in_value.
  change (so_samples (selected w)) with (so_samples w).
  change (so_bits env (so_samples w) 16)
    with (so_bits env (so_samples w) (13 + 3)).
  rewrite (so_bits_split env (so_samples w) 13 3), fold_left_app.
  set (m := fold_left shift_in (so_bits env (so_samples w) 13) 0) in *.
  change (so_bits env (so_samples w + 13) 3)
    with [so_level env (so_samples w + 13);
          so_level env (S (so_samples w + 13));
          so_level env (S (S (so_samples w + 13)))].
  rewrite fold_shift_in_last3.
  set (b13 := so_level env (so_samples w + 13)).
  set (b14 := so_level env (S (so_samples w + 13))).
  set (b15 := so_level env (S (S (so_samples w + 13)))).
  pose proof (b2z_range b14). pose proof (b2z_range b15).
  rewrite land_4_testbit, negb_involutive.
  assert (Hbit : Z.testbit (8 * m + (4 * Z.b2z b13 + 2 * Z.b2z b14 + Z.b2z b15))
                   2 = b13).
  { replace (8 * m + (4 * Z.b2z b13 + 2 * Z.b2z b14 + Z.b2z b15))
      with (2 * (2 * (2 * m + Z.b2z b13) + Z.b2z b14) + Z.b2z b15) by lia.
    rewrite (Z.testbit_succ_r _ b15 1) by lia.
    rewrite (Z.testbit_succ_r _ b14 0) by lia.
    apply Z.testbit_0_r. }
  rewrite Hbit. destruct b13 eqn:E13; [reflexivity|].
  do 3 f_equal. rewrite Z.shiftr_div_pow2 by lia. change (2 ^ 3) with 8.
  symmetry. apply (Z.div_unique _ 8 m (2 * Z.b2z b14 + Z.b2z b15)).
  - left. lia.
  - cbn [Z.b2z]. lia.
Qed.

(** * Further properties of the acquisition loop *)

Section PassEffects.

Variable env : Env.

Lemma read_snd (w : World) :
  snd (read env w) =
  mkWorld false true (so_samples w + 16) (clock_queries w) (stdin_polls w)
          (trace w ++ read_frame env (so_samples w)) (console w) (files w).
Proof. rewrite read_unfold. reflexivity. Qed.

Lemma acquire_world_closed (st : State) :
  world (acquire env st) =
  if paused st then emit (Sleep (1 # 10)) (world st)
  else
    mkWorld false true (so_samples (world st) + 16)
            (S (clock_queries (world st))) (stdin_polls (world st))
            (trace (world st) ++ read_frame env (so_samples (world st))
               ++ [Sleep (inject_Z SAMPLING_INTERVAL)])
            (console (world st) ++ [report env st]) (files (world st)).
Proof.
  rewrite acquire_world. destruct (paused st); [reflexivity|]. cbv zeta.
  unfold report, read_world.
  pose proof (read_snd (snd (ticks_ms env (world st)))) as Hr.
  destruct (read env (snd (ticks_ms env (world st)))) as [r w'].
  cbn [fst snd] in *. subst w'. unfold ticks_ms, emit. fields.
  now rewrite <- app_assoc.
Qed.

(** What the command poll does to the world: one more poll, at most one
    clock query and at most one console line; pins, bus and files are left
    alone. *)
Lemma poll_commands_world (st st1 : State) :
  poll_commands env st = Next st1 ->
  exists (q : nat) (msgs : list Line),
    world st1 =
      mkWorld (sck_level (world st)) (cs_level (world st))
              (so_samples (world st)) (clock_queries (world st) + q)
              (S (stdin_polls (world st))) (trace (world st))
              (console (world st) ++ msgs) (files (world st)) /\
    ((q = 0%nat /\ msgs = [] /\ paused st1 = paused st) \/
     (q = 1%nat /\ msgs = [Text "PAUSED"] /\ paused st1 = true) \/
     (q = 1%nat /\ msgs = [Text "RESUMED"] /\ paused st1 = false)).
Proof.
  intros H. apply poll_commands_Next in H. cbv zeta in H.
  destruct H as [(_ & _ & ->)|[(_ & _ & ps & _ & ->)|(_ & _ & _ & ->)]].
  - exists 1%nat, [Text "PAUSED"]. unfold polled, read_keyboard, ticks_ms.
    fields. rewrite Nat.add_1_r. split; [reflexivity|]. right. left. auto.
  - exists 1%nat, [Text "RESUMED"]. unfold polled, read_keyboard, ticks_ms.
    fields. rewrite Nat.add_1_r. split; [reflexivity|]. right. right. auto.
  - exists 0%nat, []. unfold polled, read_keyboard. fields.
    rewrite Nat.add_0_r, app_nil_r. split; [reflexivity|]. left. auto.
Qed.

(** ** Replaying the bus *)

Lemma levels_app (t1 t2 : list Event) : forall cs sck,
  levels cs sck (t1 ++ t2) =
  levels (fst (levels cs sck t1)) (snd (levels cs sck t1)) t2.
Proof.
  induction t1 as [|e t1 IH]; intros cs sck; [reflexivity|].
  destruct e as [[| |] l|p l|n|d]; cbn [app levels]; apply IH.
Qed.

Lemma bus_ok_app (t1 t2 : list Event) : forall cs sck,
  bus_ok cs sck (t1 ++ t2) =
  bus_ok cs sck t1
  && bus_ok (fst (levels cs sck t1)) (snd (levels cs sck t1)) t2.
Proof.
  induction t1 as [|e t1 IH]; intros cs sck; [reflexivity|].
  destruct e as [[| |] l|[| |] l|n|d]; cbn [app levels bus_ok];
    rewrite ?IH, ?andb_assoc; reflexivity.
Qed.

(** Sixteen pulses with chip-select low sample the line only with the clock
    high, and leave the clock low. *)
Lemma pulses_ok (bits : list bool) : forall sck,
  bus_ok false sck (flat_map pulse bits) = true /\
  levels false sck (flat_map pulse bits) =
    (false, match bits with [] => sck | _ :: _ => false end).
Proof.
  induction bits as [|b bits IH]; intros sck; [split; reflexivity|].
  cbn [flat_map pulse app bus_ok levels negb andb].
  destruct (IH false) as [Hok Hlv]. rewrite Hok, Hlv.
  split; [reflexivity|]. destruct bits; reflexivity.
Qed.

Lemma read_frame_ok (k : nat) (cs sck : bool) :
  bus_ok cs sck (read_frame env k) = true /\
  levels cs sck (read_frame env k) = (true, false).
Proof.
  unfold read_frame. cbn [app bus_ok levels].
  destruct (pulses_ok (so_bits env k 16) sck) as [Hok Hlv].
  rewrite bus_ok_app, levels_app, Hok, Hlv.
  split; reflexivity.
Qed.

(** A trace made of whole pulses can be extended on the right. *)
Lemma one_sample_per_pulse_app (t1 t2 : list Event) :
  one_sample_per_pulse t1 = true ->
  one_sample_per_pulse (t1 ++ t2) = one_sample_per_pulse t2.
Proof.
  remember (List.length t1) as n eqn:Hn. revert t1 Hn.
  induction n as [n IH] using lt_wf_ind. intros t1 Hn H1.
  destruct t1 as [|e1 t1]; [reflexivity|].
  destruct e1 as [[| |] l1|[| |] l1|d|d];
    try (cbn [one_sample_per_pulse app] in *;
         first [discriminate
               |apply (IH (List.length t1)); cbn [List.length] in Hn;
                [lia|reflexivity|exact H1]]).
  destruct l1; [|discriminate].
  destruct t1 as [|[p2 l2|[| |] l2|d|d] t1]; try discriminate H1.
  destruct t1 as [|[[| |] [|]|p3 l3|d|d] t1]; try discriminate H1.
  cbn [one_sample_per_pulse app] in *.
  apply (IH (List.length t1)); cbn [List.length] in Hn;
    [lia|reflexivity|exact H1].
Qed.

Lemma pulses_one_sample_each (bits : list bool) (t : list Event) :
  one_sample_per_pulse (flat_map pulse bits ++ t) = one_sample_per_pulse t.
Proof.
  induction bits as [|b bits IH]; [reflexivity|].
  cbn [flat_map pulse app one_sample_per_pulse]. exact IH.
Qed.

Lemma read_frame_one_sample_each (k : nat) (t : list Event) :
  one_sample_per_pulse (read_frame env k ++ t) = one_sample_per_pulse t.
Proof.
  unfold read_frame. cbn [app one_sample_per_pulse].
  rewrite <- app_assoc, pulses_one_sample_each. reflexivity.
Qed.

Lemma printed_samples_app (c1 c2 : list Line) :
  printed_samples (c1 ++ c2) = printed_samples c1 ++ printed_samples c2.
Proof. apply flat_map_app. Qed.

Lemma count_errors_app (c1 c2 : list Line) :
  count_errors (c1 ++ c2) = (count_errors c1 + count_errors c2)%nat.
Proof. unfold count_errors. now rewrite filter_app, length_app. Qed.

(** A running pass stores what it prints as a sample, and prints either a
    sample or a warning. *)
Lemma acquire_data_report (st : State) :
  paused st = false ->
  data (acquire env st) = data st ++ printed_samples [report env st] /\
  (List.length (printed_samples [report env st])
   + count_errors [report env st] = 1)%nat.
Proof.
  intros Hrun. rewrite acquire_running by assumption. cbv zeta.
  unfold report, read_world.
  destruct (fst (read env (snd (ticks_ms env (world st))))) as [temp|].
  - split; reflexivity.
  - fields. split; [now rewrite app_nil_r|reflexivity].
Qed.

End PassEffects.

(** X2.  One pass of the loop body that falls through polls the keyboard exactly
    once and ends with exactly one sleep.  A pass that ends paused does
    nothing else on the bus and sleeps 0.1 s; a pass that ends running
    makes one call of [read] (16 more samples of the line) and then sleeps
    for the sampling interval.  The clock is queried at most twice and no
    file is touched. *)
Theorem pass_polls_once_sleeps_once (env : Env) (st st' : State) :
  loop_body env st = Next st' ->
  stdin_polls (world st') = S (stdin_polls (world st)) /\
  files (world st') = files (world st) /\
  (clock_queries (world st) <= clock_queries (world st')
   <= clock_queries (world st) + 2)%nat /\
  if paused st' then
    trace (world st') = trace (world st) ++ [Sleep (1 # 10)] /\
    so_samples (world st') = so_samples (world st)
  else
    trace (world st') =
      trace (world st) ++ read_frame env (so_samples (world st))
        ++ [Sleep (inject_Z SAMPLING_INTERVAL)] /\
    so_samples (world st') = (so_samples (world st) + 16)%nat.
Proof.
  intros Hbody. unfold loop_body in Hbody.
  destruct (poll_commands env st) as [st1| |] eqn:Hpoll; try discriminate.
  injection Hbody as <-.
  destruct (poll_commands_world env st st1 Hpoll) as (q & msgs & Hw & Hq).
  destruct (acquire_frame env st1) as (_ & _ & _ & _ & ->).
  rewrite acquire_world_closed, Hw.
  assert (q <= 1)%nat by (destruct Hq as [(-> & _)|[(-> & _)|(-> & _)]]; lia).
  destruct (paused st1); unfold emit; fields; repeat split; lia.
Qed.

Lemma pass_polls_once_sleeps_once_witness :
  loop_body demo_env (after demo_env 1 false true) =
    Next (after demo_env 2 false true) /\
  stdin_polls (world (after demo_env 2 false true)) = 2%nat /\
  so_samples (world (after demo_env 2 false true)) = 32%nat.
Proof.
  assert (H : loop_body demo_env (after demo_env 1 false true) =
              Next (after demo_env 2 false true)) by (vm_compute; reflexivity).
  destruct (pass_polls_once_sleeps_once demo_env _ _ H)
    as (Hpolls & _ & _ & Hbus).
  split; [exact H|]. split.
  - rewrite Hpolls. vm_compute. reflexivity.
  - change (paused (after demo_env 2 false true)) with false in Hbus.
    rewrite (proj2 Hbus). vm_compute. reflexivity.
Defined.

(** X3.  The program never samples the serial-data line unless chip-select is
    low and the clock is high: replaying the pin activity recorded up to
    any evaluation of the loop guard, from whatever levels the pins had at
    power-on, finds no sample outside a clock pulse of a selected chip, and
    finds chip-select high at the end. *)
Theorem bus_protocol_respected (env : Env) (st : State) :
  reachable env st ->
  forall cs0 sck0,
    bus_ok cs0 sck0 (trace (world st)) = true /\
    fst (levels cs0 sck0 (trace (world st))) = true.
Proof.
  induction 1 as [sck1 cs1|st st' _ IH Hguard Hbody]; intros cs0 sck0.
  - split; reflexivity.
  - unfold loop_body in Hbody.
    destruct (poll_commands env st) as [st1| |] eqn:Hpoll; try discriminate.
    injection Hbody as <-.
    destruct (poll_commands_world env st st1 Hpoll) as (q & msgs & Hw & _).
    destruct (IH cs0 sck0) as [Hok Hcs].
    rewrite acquire_world_closed, Hw.
    destruct (paused st1); unfold emit; fields.
    + rewrite bus_ok_app, levels_app, Hok. split; [reflexivity|exact Hcs].
    + destruct (read_frame_ok env (so_samples (world st))
                  (fst (levels cs0 sck0 (trace (world st))))
                  (snd (levels cs0 sck0 (trace (world st))))) as [Hf Hl].
      rewrite bus_ok_app, levels_app, Hok, bus_ok_app, levels_app, Hf, Hl.
      split; reflexivity.
Qed.

Lemma bus_protocol_respected_witness :
  reachable demo_env (after demo_env 2 true false) /\
  bus_ok true false (trace (world (after demo_env 2 true false))) = true.
Proof.
  assert (Hreach : reachable demo_env (after demo_env 2 true false)).
  { apply (passes_reachable demo_env 2 _ _ (reach_start demo_env true false)).
    vm_compute. reflexivity. }
  split; [exact Hreach|].
  exact (proj1 (bus_protocol_respected demo_env _ Hreach true false)).
Defined.

(** X4.  The console, the sample store and the bus stay in step.  Whenever the
    loop guard is evaluated, the samples printed on the console are exactly
    the stored samples, in order; the line has been sampled 16 times for
    every stored sample and 16 times for every warning printed; the clock
    has been pulsed as many times as the line has been sampled; and the
    recorded pin activity consists of whole pulses, each one driving the
    clock high, sampling the line once and driving the clock low, so that
    every sampling took place in a clock pulse of its own. *)
Theorem console_store_and_bus_agree (env : Env) (st : State) :
  reachable env st ->
  printed_samples (console (world st)) = data st /\
  so_samples (world st) =
    (16 * (List.length (data st) + count_errors (console (world st))))%nat /\
  count_pulses (trace (world st)) = so_samples (world st) /\
  one_sample_per_pulse (trace (world st)) = true.
Proof.
  induction 1 as [sck0 cs0|st st' _ IH Hguard Hbody].
  - repeat split.
  - destruct IH as (Hprinted & Hso & Hpulses & Hwhole).
    unfold loop_body in Hbody.
    destruct (poll_commands env st) as [st1| |] eqn:Hpoll; try discriminate.
    injection Hbody as <-.
    destruct (poll_commands_world env st st1 Hpoll) as (q & msgs & Hw & Hq).
    destruct (poll_commands_frame env st st1 Hpoll) as (_ & Hd & _).
    assert (Hmsgs : printed_samples msgs = [] /\ count_errors msgs = 0%nat)
      by (destruct Hq as [(_ & -> & _)|[(_ & -> & _)|(_ & -> & _)]];
          split; reflexivity).
    destruct Hmsgs as [Hm1 Hm2].
    rewrite acquire_world_closed.
    destruct (paused st1) eqn:Hpa.
    + rewrite acquire_paused by assumption. rewrite Hw. unfold emit. fields.
      rewrite printed_samples_app, count_errors_app, count_pulses_app,
        Hm1, Hm2, app_nil_r, Hd, Hprinted, Hpulses, Hso.
      change (count_pulses [Sleep (1 # 10)]) with 0%nat.
      rewrite (one_sample_per_pulse_app _ _ Hwhole).
      repeat split; lia.
    + destruct (acquire_data_report env st1 Hpa) as [-> Hone].
      rewrite Hw. fields.
      rewrite !printed_samples_app, !count_errors_app, !count_pulses_app,
        Hm1, Hm2, app_nil_r, Hd, Hprinted, Hpulses, Hso, length_app.
      unfold read_frame. rewrite !count_pulses_app, count_pulses_flat_map,
        so_bits_length.
      change (count_pulses [Sleep (inject_Z SAMPLING_INTERVAL)]) with 0%nat.
      change (count_pulses [PinWrite CS false; SleepUs 10]) with 0%nat.
      change (count_pulses [PinWrite CS true]) with 0%nat.
      split; [reflexivity|]. split; [lia|]. split; [lia|].
      rewrite (one_sample_per_pulse_app _ _ Hwhole).
      fold (read_frame env (so_samples (world st))).
      apply read_frame_one_sample_each.
Qed.

Lemma console_store_and_bus_agree_witness :
  reachable fault_env (after fault_env 2 false true) /\
  count_errors (console (world (after fault_env 2 false true))) = 2%nat /\
  so_samples (world (after fault_env 2 false true)) = 32%nat /\
  printed_samples (console (world (after fault_env 2 false true))) =
    data (after fault_env 2 false true).
Proof.
  assert (Hreach : reachable fault_env (after fault_env 2 false true)).
  { apply (passes_reachable fault_env 2 _ _ (reach_start fault_env false true)).
    vm_compute. reflexivity. }
  destruct (console_store_and_bus_agree fault_env _ Hreach)
    as (Hp & Hso & _ & _).
  split; [exact Hreach|]. split; [vm_compute; reflexivity|].
  split; [rewrite Hso; vm_compute; reflexivity|exact Hp].
Defined.

(** ** What is stored *)

Lemma read_Some_range (env : Env) (w : World) (t : Q) :
  fst (read env w) = Some t ->
  exists m, t = (inject_Z m * (1 # 4))%Q /\ 0 <= m <= 8191.
Proof.
  rewrite read_unfold. cbn [fst].
  pose proof (clock_in_16_range env (selected w)) as Hr.
  generalize dependent (fst (clock_in env 16 0 (selected w))).
  intros v Hr. destruct (negb (Z.land v 4 =? 0)); [discriminate|].
  intros [= <-]. exists (Z.shiftr v 3). split; [reflexivity|].
  rewrite Z.shiftr_div_pow2 by lia. change (2 ^ 3) with 8.
  change (2 ^ 16) with 65536 in Hr.
  split; [apply Z.div_pos; lia|].
  apply Z.lt_succ_r. apply Z.div_lt_upper_bound; lia.
Qed.

(** X5.  Every stored temperature is a whole number of quarter degrees
    between 0 and 2047.75 degrees (a 13-bit count times 0.25). *)
Theorem stored_samples_are_quantized (env : Env) (st : State) :
  reachable env st -> Forall quantized (data st).
Proof.
  induction 1 as [sck0 cs0|st st' _ IH Hguard Hbody].
  - constructor.
  - unfold loop_body in Hbody.
    destruct (poll_commands env st) as [st1| |] eqn:Hpoll; try discriminate.
    injection Hbody as <-.
    destruct (poll_commands_frame env st st1 Hpoll) as (_ & Hd & _).
    destruct (acquire_data env st1) as [[-> _]|(_ & temp & Ht & -> & _)];
      rewrite Hd; [exact IH|].
    apply Forall_app. split; [exact IH|]. constructor; [|constructor].
    destruct (read_Some_range env _ temp Ht) as (m & -> & Hm).
    exists m. cbn [snd]. split; [reflexivity|exact Hm].
Qed.

Lemma stored_samples_are_quantized_witness :
  reachable demo_env (after demo_env 2 false true) /\
  Forall quantized (data (after demo_env 2 false true)).
Proof.
  assert (Hreach : reachable demo_env (after demo_env 2 false true)).
  { apply (passes_reachable demo_env 2 _ _ (reach_start demo_env false true)).
    vm_compute. reflexivity. }
  split; [exact Hreach|].
  exact (stored_samples_are_quantized demo_env _ Hreach).
Defined.

Section ActiveTime.

Variable env : Env.
Hypothesis clock_ok : monotonic_clock env.

Lemma Qle_0_ms (a : Z) : 0 <= a -> (0 <= inject_Z a / 1000)%Q.
Proof.
  intros H. unfold Qle, Qdiv, Qmult, Qinv, inject_Z. cbn [Qnum Qden].
  cbn. lia.
Qed.

Lemma startup_active_time (sck0 cs0 : bool) :
  active_time_inv env (startup env (power_on sck0 cs0)).
Proof.
  destruct (startup_fields env sck0 cs0)
    as (Hd & _ & Hp & _ & Hpt & Ht0 & _ & Hq).
  unfold active_time_inv. rewrite Hd, Hp, Hq, Hpt. split; [exact Ht0|].
  exists 1%nat. split; [lia|]. split; [discriminate|].
  split; [lia|]. intros s [].
Qed.

Lemma poll_commands_active_time (st st1 : State) :
  poll_commands env st = Next st1 ->
  within_half_period env st1 ->
  active_time_inv env st -> active_time_inv env st1.
Proof.
  intros Hpoll Hrange (Ht0 & k & Hk & Hps & Hpt & Hbound).
  apply poll_commands_Next in Hpoll. cbv zeta in Hpoll.
  destruct Hpoll as [(_ & Hpa & ->)|[(_ & Hpa & ps & Eps & ->)|(_ & _ & _ & ->)]].
  - split; [exact Ht0|]. exists (clock_queries (world st)). fields.
    pose proof (clock_ok k (clock_queries (world st))).
    split; [unfold polled, read_keyboard, ticks_ms; fields; lia|].
    split; [reflexivity|]. split; [lia|]. exact Hbound.
  - unfold within_half_period in Hrange. revert Hrange.
    unfold polled, read_keyboard, ticks_ms. fields. intros Hrange.
    specialize (Hps Hpa). rewrite Eps in Hps. injection Hps as ->.
    pose proof (clock_ok k (clock_queries (world st))).
    pose proof (clock_ok 1%nat k).
    pose proof (Hrange (clock_queries (world st))).
    rewrite ticks_diff_exact by lia.
    split; [exact Ht0|]. exists (clock_queries (world st)). fields.
    split; [lia|]. split; [discriminate|]. split; [lia|]. exact Hbound.
  - split; [exact Ht0|]. exists k. fields.
    split; [unfold polled, read_keyboard; fields; lia|].
    split; [exact Hps|]. split; [exact Hpt|]. exact Hbound.
Qed.

Lemma acquire_active_time (st : State) :
  within_half_period env (acquire env st) ->
  active_time_inv env st -> active_time_inv env (acquire env st).
Proof.
  intros Hrange (Ht0 & k & Hk & Hps & Hpt & Hbound).
  unfold within_half_period in Hrange.
  rewrite acquire_clock_queries in Hrange.
  destruct (acquire_frame env st) as (_ & Et0 & Ept & Eps & Epa).
  unfold active_time_inv.
  rewrite Et0, Ept, Eps, Epa, acquire_clock_queries.
  split; [exact Ht0|].
  destruct (acquire_data env st) as [[-> _]|(Hrun & temp & _ & -> & _)].
  - exists k. split; [destruct (paused st); lia|].
    split; [exact Hps|]. split; [exact Hpt|]. exact Hbound.
  - rewrite Hrun in *. unfold ticks_ms at 1. fields. rewrite Ht0.
    pose proof (clock_ok 1%nat (clock_queries (world st))).
    pose proof (clock_ok k (clock_queries (world st))).
    pose proof (Hrange (clock_queries (world st))).
    rewrite ticks_diff_exact by lia.
    exists (clock_queries (world st)). split; [lia|].
    split; [discriminate|]. split; [lia|].
    intros s Hs. apply in_app_or in Hs. destruct Hs as [Hs|[<-|[]]].
    + exact (Hbound s Hs).
    + cbn [fst]. apply Qle_0_ms. lia.
Qed.

Lemma reachable_active_time (st : State) :
  reachable env st -> within_half_period env st -> active_time_inv env st.
Proof.
  induction 1 as [sck0 cs0|st st' _ IH Hguard Hbody]; intros Hrange.
  - apply startup_active_time.
  - unfold loop_body in Hbody.
    destruct (poll_commands env st) as [st1| |] eqn:Hpoll; try discriminate.
    injection Hbody as <-.
    assert (H1 : (clock_queries (world st1)
                  <= clock_queries (world (acquire env st1)))%nat)
      by (rewrite acquire_clock_queries; destruct (paused st1); lia).
    pose proof (poll_commands_clock_queries env st st1 Hpoll) as H0.
    apply acquire_active_time; [exact Hrange|].
    apply (poll_commands_active_time st st1 Hpoll).
    + exact (within_half_period_le env st1 _ H1 Hrange).
    + apply IH. apply (within_half_period_le env st (acquire env st1)); [lia|].
      exact Hrange.
Qed.

End ActiveTime.

(** X6.  With a clock that never runs backwards and a run that has stayed
    within half a tick period of its start: the cumulative paused duration
    is never negative and never more than the uptime since the start; no
    stored elapsed time is negative; and the number of milliseconds that a
    running pass divides by 1000 lies between 0 and the uptime that has
    truly passed since the start reading. *)
Theorem elapsed_within_true_time (env : Env) (st : State) :
  reachable env st ->
  monotonic_clock env ->
  within_half_period env st ->
  let start := uptime_ms env 1 in
  let latest := uptime_ms env (clock_queries (world st) - 1) in
  0 <= paused_time st <= latest - start /\
  (forall s, In s (data st) -> (0 <= fst s)%Q) /\
  forall st1,
    poll_commands env st = Next st1 ->
    paused st1 = false ->
    within_half_period env (acquire env st1) ->
    0 <= elapsed_ms (fst (ticks_ms env (world st1))) st1
      <= uptime_ms env (clock_queries (world st1)) - start.
Proof.
  intros Hst Hmono Hrange start latest.
  destruct (reachable_active_time env Hmono st Hst Hrange)
    as (_ & k & Hk & _ & Hpt & Hbound).
  pose proof (Hmono k (clock_queries (world st) - 1)%nat) as Hlate.
  fold latest in Hlate.
  split; [subst start; lia|]. split; [exact Hbound|].
  intros st1 Hpoll Hrun Hrange'.
  assert (Hrange1 : within_half_period env st1).
  { apply (within_half_period_le env st1 (acquire env st1)); [|exact Hrange'].
    rewrite acquire_clock_queries, Hrun. lia. }
  destruct (poll_commands_active_time env Hmono st st1 Hpoll Hrange1
              (reachable_active_time env Hmono st Hst Hrange))
    as (_ & k1 & Hk1 & _ & Hpt1 & _).
  rewrite (proj2 (elapsed_ms_true_time env Hmono st st1 Hst Hpoll Hrange'
                    Hrun)).
  pose proof (Hmono k1 (clock_queries (world st1))) as Hnow.
  subst start. lia.
Qed.

Lemma elapsed_within_true_time_witness :
  reachable operator_env (after operator_env 3 false true) /\
  monotonic_clock operator_env /\
  within_half_period operator_env (after operator_env 3 false true) /\
  0 <= paused_time (after operator_env 3 false true) /\
  0 <= elapsed_ms
         (fst (ticks_ms operator_env
                 (world (after_poll operator_env
                           (after operator_env 3 false true)))))
         (after_poll operator_env (after operator_env 3 false true))
    <= 5000 - 1000.
Proof.
  assert (Hreach : reachable operator_env (after operator_env 3 false true)).
  { apply (passes_reachable operator_env 3 _ _
             (reach_start operator_env false true)).
    vm_compute. reflexivity. }
  assert (Hrange : within_half_period operator_env
                     (after operator_env 3 false true)).
  { intros n Hn. vm_compute in Hn.
    cbn [operator_env steady_env uptime_ms].
    change (TICKS_PERIOD / 2) with (2 ^ 29).
    apply Nat.lt_succ_r in Hn. lia. }
  destruct (elapsed_within_true_time operator_env _ Hreach
              operator_env_monotonic Hrange) as (Hpt & _ & Hms).
  split; [exact Hreach|]. split; [exact operator_env_monotonic|].
  split; [exact Hrange|]. split; [exact (proj1 Hpt)|].
  apply (Hms (after_poll operator_env (after operator_env 3 false true))).
  - vm_compute. reflexivity.
  - vm_compute. reflexivity.
  - intros n Hn. vm_compute in Hn.
    cbn [operator_env steady_env uptime_ms].
    change (TICKS_PERIOD / 2) with (2 ^ 29).
    apply Nat.lt_succ_r in Hn. lia.
Defined.

(** ** Passes that store nothing *)

Section IdlePasses.

Variable env : Env.

Lemma key_at_unfold (st : State) :
  key_at env st =
  option_map strip (stdin_line env (stdin_polls (world st))).
Proof. reflexivity. Qed.

Lemma paused_pass (st : State) :
  paused st = true ->
  key_is (key_at env st) "r" = false ->
  key_is (key_at env st) "q" = false ->
  loop_body env st =
  Next (with_world st (emit (Sleep (1 # 10)) (polled env st))).
Proof.
  intros Hpa Hr Hq. unfold loop_body, poll_commands.
  unfold key_at, polled in *.
  destruct (read_keyboard env (world st)) as [key w]. cbn [fst snd] in *.
  rewrite Hpa, Hr, Hq, andb_false_r. cbn [andb].
  now rewrite acquire_paused.
Qed.

End IdlePasses.

Lemma paused_passes_idle (env : Env) (n : nat) :
  forall st : State,
    paused st = true ->
    loop_guard st = true ->
    (forall i, (i < n)%nat ->
       let key :=
         option_map strip (stdin_line env (stdin_polls (world st) + i)) in
       key_is key "r" = false /\ key_is key "q" = false) ->
    passes env n st =
    Some (with_world st
            (mkWorld (sck_level (world st)) (cs_level (world st))
                     (so_samples (world st)) (clock_queries (world st))
                     (stdin_polls (world st) + n)
                     (trace (world st) ++ repeat (Sleep (1 # 10)) n)
                     (console (world st)) (files (world st)))).
Proof.
  induction n as [|n IH]; intros st Hpa Hguard Hkeys.
  - cbn [passes repeat]. rewrite Nat.add_0_r, app_nil_r.
    destruct st as [[] ? ? ? ? ? ? ?]. reflexivity.
  - cbn [passes]. rewrite Hguard.
    destruct (Hkeys O) as [Hr Hq]; [lia|]. cbv zeta in Hr, Hq.
    rewrite Nat.add_0_r, <- key_at_unfold in Hr, Hq.
    rewrite (paused_pass env st Hpa Hr Hq).
    rewrite IH; [| exact Hpa | exact Hguard |].
    + unfold with_world, polled, read_keyboard, emit. fields.
      cbn [repeat]. rewrite <- app_assoc. cbn [app].
      now rewrite Nat.add_succ_r.
    + intros i Hi. unfold polled, read_keyboard, emit. fields.
      replace (S (stdin_polls (world st)) + i)%nat
        with (stdin_polls (world st) + S i)%nat by lia.
      apply Hkeys. lia.
Qed.

(** X7.  While paused, any number of passes whose commands are neither [r] nor
    [q] (no input, unknown words, [p] again) change none of the program's
    variables: they only poll the keyboard and sleep 0.1 s each.  The
    sensor is not read, the clock is not queried, nothing is printed, and
    the recorded pause start is kept. *)
Theorem paused_passes_only_poll_and_sleep (env : Env) (n : nat) (st : State) :
  paused st = true ->
  loop_guard st = true ->
  (forall i, (i < n)%nat ->
     let key :=
       option_map strip (stdin_line env (stdin_polls (world st) + i)) in
     key_is key "r" = false /\ key_is key "q" = false) ->
  exists st',
    passes env n st = Some st' /\
    data st' = data st /\ sample_count st' = sample_count st /\
    paused st' = true /\ pause_start st' = pause_start st /\
    paused_time st' = paused_time st /\ t0 st' = t0 st /\
    clock_queries (world st') = clock_queries (world st) /\
    so_samples (world st') = so_samples (world st) /\
    console (world st') = console (world st) /\
    stdin_polls (world st') = (stdin_polls (world st) + n)%nat /\
    trace (world st') = trace (world st) ++ repeat (Sleep (1 # 10)) n.
Proof.
  intros Hpa Hguard Hkeys. eexists. split.
  - apply paused_passes_idle; assumption.
  - fields. repeat split. exact Hpa.
Qed.

Lemma paused_passes_only_poll_and_sleep_witness :
  paused (after idle_env 2 false true) = true /\
  loop_guard (after idle_env 2 false true) = true /\
  exists st',
    passes idle_env 3 (after idle_env 2 false true) = Some st' /\
    data st' = data (after idle_env 2 false true) /\
    pause_start st' = pause_start (after idle_env 2 false true) /\
    clock_queries (world st') =
      clock_queries (world (after idle_env 2 false true)) /\
    stdin_polls (world st') =
      (stdin_polls (world (after idle_env 2 false true)) + 3)%nat.
Proof.
  assert (Hpa : paused (after idle_env 2 false true) = true)
    by (vm_compute; reflexivity).
  assert (Hguard : loop_guard (after idle_env 2 false true) = true)
    by (vm_compute; reflexivity).
  split; [exact Hpa|]. split; [exact Hguard|].
  destruct (paused_passes_only_poll_and_sleep idle_env 3 _ Hpa Hguard)
    as (st' & Hp & Hd & _ & _ & Hps & _ & _ & Hq & _ & _ & Hpolls & _).
  - intros i Hi.
    change (stdin_polls (world (after idle_env 2 false true))) with 2%nat.
    destruct i as [|[|[|i]]]; [split; reflexivity ..|lia].
  - exists st'. repeat split; assumption.
Defined.

(** ** Runs with a steady sensor and a silent operator *)

Lemma steady_env_line (word period : Z) (keys : nat -> option string)
      (k i : nat) :
  (k mod 16 = 0)%nat -> (i < 16)%nat ->
  so_level (steady_env word period keys) (k + i) =
  Z.testbit word (15 - Z.of_nat i).
Proof.
  intros Hk Hi. cbn [steady_env so_level]. do 2 f_equal.
  rewrite <- Nat.Div0.add_mod_idemp_l, Hk. cbn [Nat.add].
  now rewrite Nat.mod_small.
Qed.

Section DisconnectedRun.

Variables (word period : Z).
Hypothesis word_range : 0 <= word < 2 ^ 16.
Hypothesis fault : Z.testbit word 2 = true.

Local Abbreviation env := (steady_env word period no_keys).

Lemma fault_pass (st : State) :
  paused st = false -> (so_samples (world st) mod 16 = 0)%nat ->
  exists st',
    loop_body env st = Next st' /\
    paused st' = false /\ (so_samples (world st') mod 16 = 0)%nat /\
    sample_count st' = sample_count st /\ data st' = data st.
Proof.
  intros Hrun Hso.
  assert (Hpoll : poll_commands env st = Next (with_world st (polled env st))).
  { unfold poll_commands, polled, read_keyboard.
    cbn [steady_env stdin_line no_keys option_map key_is andb fst snd].
    reflexivity. }
  exists (acquire env (with_world st (polled env st))).
  split; [unfold loop_body; now rewrite Hpoll|].
  destruct (acquire_frame env (with_world st (polled env st)))
    as (_ & _ & _ & _ & ->).
  split; [exact Hrun|].
  assert (Hread : fst (read env (snd (ticks_ms env (polled env st)))) = None).
  { rewrite (read_presented_word env _ word word_range).
    - now rewrite fault.
    - intros i Hi. now apply steady_env_line. }
  split.
  - rewrite acquire_world_closed. fields. rewrite Hrun.
    unfold polled, read_keyboard. fields.
    rewrite <- Nat.Div0.add_mod_idemp_l, Hso. reflexivity.
  - destruct (acquire_data env (with_world st (polled env st)))
      as [[-> ->]|(_ & temp & Ht & _)].
    + split; reflexivity.
    + cbn [world with_world] in Ht. congruence.
Qed.

Lemma fault_loop_runs_on (fuel : nat) : forall st,
  paused st = false -> (so_samples (world st) mod 16 = 0)%nat ->
  loop_guard st = true ->
  acquisition_loop env fuel st = None.
Proof.
  induction fuel as [|fuel IH]; intros st Hrun Hso Hguard;
    cbn [acquisition_loop]; rewrite Hguard; [reflexivity|].
  destruct (fault_pass st Hrun Hso) as (st' & -> & Hrun' & Hso' & Hc & _).
  apply IH; try assumption. unfold loop_guard in *. now rewrite Hc.
Qed.

Lemma fault_passes (n : nat) : forall st,
  paused st = false -> (so_samples (world st) mod 16 = 0)%nat ->
  loop_guard st = true ->
  exists st',
    passes env n st = Some st' /\
    sample_count st' = sample_count st /\ data st' = data st.
Proof.
  induction n as [|n IH]; intros st Hrun Hso Hguard.
  - exists st. repeat split.
  - destruct (fault_pass st Hrun Hso) as (st1 & Hb & Hrun1 & Hso1 & Hc & Hd).
    destruct (IH st1 Hrun1 Hso1) as (st' & Hp & Hc' & Hd').
    { unfold loop_guard in *. now rewrite Hc. }
    exists st'. cbn [passes]. rewrite Hguard, Hb.
    repeat split; congruence.
Qed.

(** X9.  With the thermocouple disconnected for good and a silent operator the
    loop never ends, whatever the number of passes allowed, and never
    stores a sample: the program has no time-out of its own. *)
Theorem disconnected_run_never_ends (sck0 cs0 : bool) :
  (forall fuel,
     acquisition_loop env fuel (startup env (power_on sck0 cs0)) = None) /\
  (forall fuel, main env fuel (power_on sck0 cs0) = None) /\
  (forall n, exists st',
     passes env n (startup env (power_on sck0 cs0)) = Some st' /\
     sample_count st' = 0 /\ data st' = []).
Proof.
  assert (Hloop : forall fuel,
            acquisition_loop env fuel (startup env (power_on sck0 cs0)) = None)
    by (intros fuel; apply fault_loop_runs_on; reflexivity).
  split; [exact Hloop|]. split.
  - intros fuel. unfold main. now rewrite Hloop.
  - intros n.
    destruct (fault_passes n (startup env (power_on sck0 cs0)))
      as (st' & Hp & Hc & Hd); try reflexivity.
    exists st'. split; [exact Hp|]. split; [exact Hc|exact Hd].
Qed.

End DisconnectedRun.

Lemma disconnected_run_never_ends_witness :
  0 <= 3204 < 2 ^ 16 /\
  Z.testbit 3204 2 = true /\
  forall fuel, main fault_env fuel (power_on false true) = None.
Proof.
  assert (Hword : 0 <= 3204 < 2 ^ 16) by lia.
  split; [exact Hword|]. split; [reflexivity|].
  exact (proj1 (proj2 (disconnected_run_never_ends 3204 1000 Hword eq_refl
                         false true))).
Defined.

Lemma steady_run_reaches_quota_witness :
  0 <= 3200 < 2 ^ 16 /\
  Z.testbit 3200 2 = false /\
  exists st',
    acquisition_loop demo_env (180 + 0)
      (startup demo_env (power_on false true)) = Some (GuardFalse, st') /\
    sample_count st' = 180 /\ List.length (data st') = 180%nat.
Proof.
  assert (Hword : 0 <= 3200 < 2 ^ 16) by lia.
  split; [exact Hword|]. split; [reflexivity|].
  exact (steady_run_reaches_quota 3200 1000 Hword eq_refl false true 0).
Defined.

(** ** A complete pause *)

Lemma pause_pass (env : Env) (st : State) :
  paused st = false ->
  key_is (key_at env st) "p" = true ->
  loop_body env st =
  Next (mkState
          (emit (Sleep (1 # 10))
             (snd (print (Text "PAUSED") (snd (ticks_ms env (polled env st))))))
          (csv_filename st) (data st) (t0 st) (paused_time st)
          (Some (ticks_of (uptime_ms env (clock_queries (world st)))))
          true (sample_count st)).
Proof.
  intros Hrun Hkey.
  unfold loop_body, poll_commands, key_at, polled, read_keyboard in *.
  cbn [fst snd] in *. rewrite Hkey, Hrun. cbn [negb andb].
  unfold ticks_ms. cbn [print fst snd clock_queries].
  now rewrite acquire_paused.
Qed.

Lemma resume_poll (env : Env) (st : State) (ps : Z) :
  paused st = true ->
  pause_start st = Some ps ->
  key_is (key_at env st) "r" = true ->
  poll_commands env st =
  Next (mkState
          (snd (print (Text "RESUMED") (snd (ticks_ms env (polled env st)))))
          (csv_filename st) (data st) (t0 st)
          (paused_time st
           + ticks_diff (ticks_of (uptime_ms env (clock_queries (world st)))) ps)
          (pause_start st) false (sample_count st)).
Proof.
  intros Hpa Hps Hkey.
  unfold poll_commands, key_at, polled, read_keyboard in *.
  cbn [fst snd] in *. rewrite Hkey, Hpa, Hps, andb_false_r. cbn [andb].
  unfold ticks_ms. cbn [print fst snd clock_queries]. reflexivity.
Qed.

(** X8.  A complete pause: [p] consumed while running, then [n] passes without
    [r] or [q], then [r].  If the clock does not run backwards between the
    two readings and the pause is shorter than half a tick period, the
    resume adds to the cumulative paused duration exactly the uptime that
    passed between the clock reading of the pause and that of the resume,
    and in the meantime no sample is stored and the sensor is not read. *)
Theorem pause_cycle_adds_its_length (env : Env) (n : nat) (st : State) :
  paused st = false ->
  loop_guard st = true ->
  key_is (key_at env st) "p" = true ->
  (forall i, (i < n)%nat ->
     let key :=
       option_map strip (stdin_line env (S (stdin_polls (world st)) + i)) in
     key_is key "r" = false /\ key_is key "q" = false) ->
  key_is (option_map strip
            (stdin_line env (S (stdin_polls (world st)) + n))) "r" = true ->
  0 <= uptime_ms env (S (clock_queries (world st)))
       - uptime_ms env (clock_queries (world st)) < TICKS_PERIOD / 2 ->
  exists st1 st2,
    passes env (S n) st = Some st1 /\
    paused st1 = true /\
    poll_commands env st1 = Next st2 /\
    paused st2 = false /\
    paused_time st2 =
      paused_time st
      + (uptime_ms env (S (clock_queries (world st)))
         - uptime_ms env (clock_queries (world st))) /\
    data st2 = data st /\
    sample_count st2 = sample_count st /\
    so_samples (world st2) = so_samples (world st) /\
    t0 st2 = t0 st.
Proof.
  intros Hrun Hguard Hp Hidle Hr Hlen.
  pose proof (pause_pass env st Hrun Hp) as Hbody.
  remember (mkState
          (emit (Sleep (1 # 10))
             (snd (print (Text "PAUSED") (snd (ticks_ms env (polled env st))))))
          (csv_filename st) (data st) (t0 st) (paused_time st)
          (Some (ticks_of (uptime_ms env (clock_queries (world st)))))
          true (sample_count st)) as stp eqn:Estp.
  assert (Hstp : paused stp = true /\
                 pause_start stp =
                   Some (ticks_of (uptime_ms env (clock_queries (world st)))) /\
                 paused_time stp = paused_time st /\ data stp = data st /\
                 sample_count stp = sample_count st /\ t0 stp = t0 st /\
                 stdin_polls (world stp) = S (stdin_polls (world st)) /\
                 clock_queries (world stp) = S (clock_queries (world st)) /\
                 so_samples (world stp) = so_samples (world st))
    by (subst stp; repeat split).
  destruct Hstp as (Hpa & Hps & Hpt & Hd & Hc & Ht0 & Hpolls & Hclock & Hso).
  assert (Hguardp : loop_guard stp = true)
    by (unfold loop_guard in *; now rewrite Hc).
  pose proof (paused_passes_idle env n stp Hpa Hguardp) as Hpasses.
  rewrite Hpolls in Hpasses. specialize (Hpasses Hidle).
  clear Estp.
  remember (with_world stp
          (mkWorld (sck_level (world stp)) (cs_level (world stp))
             (so_samples (world stp)) (clock_queries (world stp))
             (S (stdin_polls (world st)) + n)
             (trace (world stp) ++ repeat (Sleep (1 # 10)) n)
             (console (world stp)) (files (world stp)))) as st1 eqn:Est1.
  assert (Hst1 : paused st1 = true /\ pause_start st1 = pause_start stp /\
                 paused_time st1 = paused_time stp /\ data st1 = data stp /\
                 sample_count st1 = sample_count stp /\ t0 st1 = t0 stp /\
                 stdin_polls (world st1) = (S (stdin_polls (world st)) + n)%nat /\
                 clock_queries (world st1) = clock_queries (world stp) /\
                 so_samples (world st1) = so_samples (world stp))
    by (subst st1; fields; repeat split; exact Hpa).
  destruct Hst1
    as (Hpa1 & Hps1 & Hpt1 & Hd1 & Hc1 & Ht1 & Hpolls1 & Hclock1 & Hso1).
  clear Est1.
  assert (Hr1 : key_is (key_at env st1) "r" = true)
    by (rewrite key_at_unfold, Hpolls1; exact Hr).
  rewrite Hps in Hps1.
  pose proof (resume_poll env st1 _ Hpa1 Hps1 Hr1) as Hpoll.
  exists st1. eexists.
  split; [cbn [passes]; rewrite Hguard, Hbody; exact Hpasses|].
  split; [exact Hpa1|]. split; [exact Hpoll|].
  assert (Hhalf : 0 < TICKS_PERIOD / 2) by reflexivity.
  cbn [paused paused_time data sample_count t0 world].
  rewrite Hclock1, Hclock, Hpt1, Hpt, Hd1, Hd, Hc1, Hc, Ht1, Ht0.
  rewrite ticks_diff_exact by lia.
  repeat split. unfold polled, read_keyboard, ticks_ms. fields. congruence.
Qed.

Lemma pause_cycle_adds_its_length_witness :
  paused (after operator_env 1 false true) = false /\
  loop_guard (after operator_env 1 false true) = true /\
  key_is (key_at operator_env (after operator_env 1 false true)) "p" = true /\
  exists st1 st2,
    passes operator_env 2 (after operator_env 1 false true) = Some st1 /\
    poll_commands operator_env st1 = Next st2 /\
    paused_time st2 =
      paused_time (after operator_env 1 false true) + (4000 - 3000) /\
    data st2 = data (after operator_env 1 false true).
Proof.
  assert (H1 : paused (after operator_env 1 false true) = false)
    by (vm_compute; reflexivity).
  assert (H2 : loop_guard (after operator_env 1 false true) = true)
    by (vm_compute; reflexivity).
  assert (H3 : key_is (key_at operator_env (after operator_env 1 false true))
                 "p" = true) by (vm_compute; reflexivity).
  split; [exact H1|]. split; [exact H2|]. split; [exact H3|].
  destruct (pause_cycle_adds_its_length operator_env 1 _ H1 H2 H3)
    as (st1 & st2 & Hp & _ & Hpoll & _ & Hpt & Hd & _).
  - intros i Hi.
    change (stdin_polls (world (after operator_env 1 false true))) with 1%nat.
    destruct i as [|i]; [split; reflexivity|lia].
  - vm_compute. reflexivity.
  - change (clock_queries (world (after operator_env 1 false true)))
      with 3%nat.
    cbn [operator_env steady_env uptime_ms].
    change (TICKS_PERIOD / 2) with (2 ^ 29). lia.
  - exists st1, st2. split; [exact Hp|]. split; [exact Hpoll|].
    split; [|exact Hd].
    rewrite Hpt.
    change (clock_queries (world (after operator_env 1 false true)))
      with 3%nat.
    reflexivity.
Defined.

(** ** The end of the program *)

Section Output.

Variable env : Env.

Lemma poll_commands_Break (st st' : State) :
  poll_commands env st = Break st' ->
  key_is (key_at env st) "q" = true /\
  st' = with_world st (snd (print (Text "STOP") (polled env st))).
Proof.
  destruct (key_is (key_at env st) "q") eqn:Hq.
  - rewrite (poll_commands_quit env st Hq). intros [= <-]. now split.
  - unfold poll_commands, key_at in *.
    destruct (read_keyboard env (world st)) as [key w]. cbn [fst] in Hq.
    rewrite Hq.
    destruct (key_is key "p" && negb (paused st)).
    + destruct (ticks_ms env w). discriminate.
    + destruct (key_is key "r" && paused st); [|discriminate].
      destruct (ticks_ms env w). destruct (pause_start st); discriminate.
Qed.

(** The file name is fixed at start-up, from the first clock reading. *)
Lemma reachable_csv_filename (st : State) :
  reachable env st ->
  csv_filename st =
  ("temp_" ++ str_of_Z (ticks_of (uptime_ms env 0)) ++ ".csv")%string.
Proof.
  induction 1 as [sck0 cs0|st st' _ IH Hguard Hbody]; [reflexivity|].
  unfold loop_body in Hbody.
  destruct (poll_commands env st) as [st1| |] eqn:Hpoll; try discriminate.
  injection Hbody as <-.
  destruct (poll_commands_frame env st st1 Hpoll) as (Hn & _).
  destruct (acquire_frame env st1) as (-> & _). congruence.
Qed.

(** However the loop is left, it is left from a state in which the guard
    was evaluated: by the guard being false there, or by a [break] in the
    pass that started there. *)
Lemma acquisition_loop_exit (fuel : nat) : forall st e st',
  reachable env st ->
  acquisition_loop env fuel st = Some (e, st') ->
  exists st0,
    reachable env st0 /\
    ((e = GuardFalse /\ st' = st0 /\ loop_guard st0 = false) \/
     (e = ByBreak /\ loop_guard st0 = true /\ loop_body env st0 = Break st')).
Proof.
  induction fuel as [|fuel IH]; intros st e st' Hst; cbn [acquisition_loop];
    destruct (loop_guard st) eqn:Hguard; try discriminate.
  - intros [= <- <-]. exists st. split; [exact Hst|]. left. auto.
  - destruct (loop_body env st) as [st1|st1|st1] eqn:Hbody.
    + apply IH. exact (reach_next env st st1 Hst Hguard Hbody).
    + intros [= <- <-]. exists st. split; [exact Hst|]. right. auto.
    + exfalso. exact (loop_body_specified env st st1 Hst Hbody).
  - intros [= <- <-]. exists st. split; [exact Hst|]. left. auto.
Qed.

End Output.

(** X11.  Whenever the loop ends, the program prints [STOP], then either writes
    one CSV file and reports it, or, with no sample stored, writes no file
    and says so.  The file is named after the first clock reading of the
    run and holds the header followed by one line per stored sample, in
    storage order; after a run that ended by the quota these are the 180
    stored samples, hence 181 lines.
    The loop never ends by applying [ticks_diff] to a missing pause
    start. *)
Theorem program_output (env : Env) (fuel : nat) (sck0 cs0 : bool)
        (e : Exit) (st' : State) :
  acquisition_loop env fuel (startup env (power_on sck0 cs0)) = Some (e, st') ->
  e <> ByUnspecified /\
  csv_filename st' =
    ("temp_" ++ str_of_Z (ticks_of (uptime_ms env 0)) ++ ".csv")%string /\
  (e = GuardFalse -> List.length (data st') = 180%nat) /\
  exists W,
    main env fuel (power_on sck0 cs0) = Some (e, W) /\
    console W = console (world st') ++ [Text "STOP"; closing_line st'] /\
    files W =
      match data st' with
      | [] => []
      | _ :: _ =>
          [(csv_filename st',
            Text "time_seconds,temperature_C"
            :: map (fun s => SampleLine (fst s) (snd s)) (data st'))]
      end.
Proof.
  intros Hloop.
  destruct (acquisition_loop_exit env fuel _ e st'
              (reach_start env sck0 cs0) Hloop) as (st0 & Hst0 & Hexit).
  pose proof (reachable_csv_filename env st0 Hst0) as Hname.
  pose proof (reachable_no_files env st0 Hst0) as Hfiles.
  destruct (reachable_well_formed env st0 Hst0) as (Hlen & Hle & _).
  assert (Hst' : e <> ByUnspecified /\ csv_filename st' = csv_filename st0 /\
                 files (world st') = [] /\
                 (e = GuardFalse -> List.length (data st') = 180%nat)).
  { destruct Hexit as [(-> & -> & Hguard)|(-> & Hguard & Hbody)].
    - split; [discriminate|]. split; [reflexivity|]. split; [exact Hfiles|].
      intros _. unfold loop_guard in Hguard. apply Z.ltb_ge in Hguard.
      unfold TOTAL_SAMPLES in *. lia.
    - unfold loop_body in Hbody.
      destruct (poll_commands env st0) as [st1|st1|st1] eqn:Hpoll;
        try discriminate.
      injection Hbody as ->.
      destruct (poll_commands_Break env st0 st' Hpoll) as (_ & ->).
      split; [discriminate|]. split; [reflexivity|].
      split; [exact Hfiles|discriminate]. }
  destruct Hst' as (He & Hn' & Hf' & H180).
  split; [exact He|]. split; [congruence|]. split.
  - exact H180.
  - unfold main. rewrite Hloop.
    destruct e; [| |congruence]; cbn [print]; eexists;
      (split; [reflexivity|]); unfold write_out, closing_line, write_csv;
      fields; destruct (data st'); cbn [snd print console files];
      rewrite ?Hf', <- ?app_assoc; split; reflexivity.
Qed.

Lemma program_output_witness :
  acquisition_loop operator_env 6 (startup operator_env (power_on false true))
    = Some (ByBreak, after_poll operator_env (after operator_env 5 false true))
  /\
  exists W,
    main operator_env 6 (power_on false true) = Some (ByBreak, W) /\
    files W =
      match data (after_poll operator_env (after operator_env 5 false true))
      with
      | [] => []
      | _ :: _ =>
          [(csv_filename
              (after_poll operator_env (after operator_env 5 false true)),
            Text "time_seconds,temperature_C"
            :: map (fun s => SampleLine (fst s) (snd s))
                 (data (after_poll operator_env
                          (after operator_env 5 false true))))]
      end.
Proof.
  assert (H : acquisition_loop operator_env 6
                (startup operator_env (power_on false true)) =
              Some (ByBreak,
                    after_poll operator_env (after operator_env 5 false true)))
    by (vm_compute; reflexivity).
  split; [exact H|].
  destruct (program_output operator_env 6 false true _ _ H)
    as (_ & _ & _ & W & Hmain & _ & Hfiles).
  exists W. split; [exact Hmain|exact Hfiles].
Defined.

(** * The keyboard helper *)

Lemma lstrip_all_space (ws s : string) :
  all_space ws = true -> lstrip (ws ++ s) = lstrip s.
Proof.
  induction ws as [|c ws IH]; [reflexivity|].
  unfold all_space. cbn [list_ascii_of_string forallb].
  intros H. apply andb_prop in H as [Hc Hws].
  cbn [append lstrip]. rewrite Hc. now apply IH.
Qed.

Lemma lstrip_only_space (ws : string) :
  all_space ws = true -> lstrip ws = EmptyString.
Proof.
  induction ws as [|c ws IH]; [reflexivity|].
  unfold all_space. cbn [list_ascii_of_string forallb].
  intros H. apply andb_prop in H as [Hc Hws].
  cbn [lstrip]. rewrite Hc. now apply IH.
Qed.

Lemma rstrip_all_space (ws : string) : all_space ws = true -> rstrip ws = EmptyString.
Proof.
  induction ws as [|c ws IH]; [reflexivity|].
  unfold all_space. cbn [list_ascii_of_string forallb].
  intros H. apply andb_prop in H as [Hc Hws].
  cbn [rstrip]. rewrite (IH Hws), Hc. reflexivity.
Qed.

Lemma rstrip_no_space (c ws : string) :
  no_space c = true -> all_space ws = true -> rstrip (c ++ ws) = c.
Proof.
  intros Hc Hws. induction c as [|a c IH]; [now apply rstrip_all_space|].
  unfold no_space in Hc. cbn [list_ascii_of_string forallb] in Hc.
  apply andb_prop in Hc as [Ha Hc]. apply negb_true_iff in Ha.
  cbn [append rstrip]. rewrite (IH Hc), Ha. destruct c; reflexivity.
Qed.

Lemma strip_padded (ws1 c ws2 : string) :
  all_space ws1 = true -> all_space ws2 = true -> no_space c = true ->
  strip (ws1 ++ c ++ ws2) = c.
Proof.
  intros H1 H2 Hc. unfold strip. rewrite (lstrip_all_space ws1 _ H1).
  destruct c as [|a c].
  - cbn [append]. now rewrite (lstrip_only_space ws2 H2).
  - assert (Ha : is_space a = false).
    { unfold no_space in Hc. cbn [list_ascii_of_string forallb] in Hc.
      apply andb_prop in Hc as [Ha _]. now apply negb_true_iff in Ha. }
    cbn [append lstrip]. rewrite Ha.
    exact (rstrip_no_space (String a c) ws2 Hc H2).
Qed.

(** X12.  A pending line is consumed by one poll and read as the word it holds,
    whatever whitespace surrounds the word: leading and trailing blanks,
    tabs and the newline are dropped, so [p], [r] and [q] are recognised as
    typed, and a word counts as a command only if it is exactly one of
    them. *)
Theorem read_keyboard_trims_whitespace
        (env : Env) (w : World) (ws1 c ws2 : string) :
  stdin_line env (stdin_polls w) = Some (ws1 ++ c ++ ws2)%string ->
  all_space ws1 = true -> all_space ws2 = true -> no_space c = true ->
  fst (read_keyboard env w) = Some c /\
  stdin_polls (snd (read_keyboard env w)) = S (stdin_polls w) /\
  forall cmd, key_is (fst (read_keyboard env w)) cmd = String.eqb c cmd.
Proof.
  intros Hline H1 H2 Hc.
  assert (Hkey : fst (read_keyboard env w) = Some c).
  { unfold read_keyboard. cbn [fst]. rewrite Hline. cbn [option_map].
    now rewrite strip_padded. }
  split; [exact Hkey|]. split; [reflexivity|].
  intros cmd. now rewrite Hkey.
Qed.

Lemma read_keyboard_trims_whitespace_witness :
  stdin_line operator_env (stdin_polls (world (after operator_env 1 false true)))
    = Some (EmptyString ++ "p" ++ String "010"%char EmptyString)%string /\
  fst (read_keyboard operator_env (world (after operator_env 1 false true)))
    = Some "p"%string.
Proof.
  assert (H : stdin_line operator_env
                (stdin_polls (world (after operator_env 1 false true))) =
              Some (EmptyString ++ "p" ++ String "010"%char EmptyString)%string)
    by (vm_compute; reflexivity).
  split; [exact H|].
  exact (proj1 (read_keyboard_trims_whitespace operator_env _ _ _ _ H
                  eq_refl eq_refl eq_refl)).
Defined.
